(** * Task scheduler (05_automation/task_scheduler.py): dispatch, retry and
    trigger bookkeeping, embedded as state-passing functions.

    Layout: Python string helpers, the data model ([TaskStatus],
    [TaskResult], [Task]), the third-party [schedule] job list, the
    [TaskScheduler] methods, an interleaving machine for the worker
    threads, and then the theorems. *)

From Stdlib Require Import ZArith QArith Ascii String List Bool Lia.
From stdpp Require Import gmap strings list pretty sorting.
Import ListNotations.

Local Open Scope Z_scope.

(** ** Python [str] methods used by the scheduler *)

Module PyStr.

(** [s.lower()], on the ASCII range. *)
Definition lower_ascii (a : ascii) : ascii :=
  let n := nat_of_ascii a in
  if (Nat.leb 65 n && Nat.leb n 90)%bool then ascii_of_nat (n + 32) else a.

Fixpoint lower (s : string) : string :=
  match s with
  | EmptyString => EmptyString
  | String a s' => String (lower_ascii a) (lower s')
  end.

Fixpoint lstrip (s : string) : string :=
  match s with
  | EmptyString => EmptyString
  | String a s' => if Ascii.is_space a then lstrip s' else s
  end.

(** [s.strip()] *)
Definition strip (s : string) : string :=
  String.rev (lstrip (String.rev (lstrip s))).

(** [s.startswith(p)] *)
Definition startswith (s p : string) : bool := String.prefix p s.

(** [sub in s] *)
Fixpoint contains (sub s : string) : bool :=
  String.prefix sub s ||
  match s with
  | EmptyString => false
  | String _ s' => contains sub s'
  end.

(** [s.split(sep)] for a non-empty [sep]; [skip] counts the characters
    of a separator occurrence still to be dropped, [cur] is the piece
    being read, reversed. *)
Fixpoint split_go (sep : string) (skip : nat) (cur s : string) : list string :=
  match s with
  | EmptyString => [String.rev cur]
  | String a s' =>
      match skip with
      | S k => split_go sep k cur s'
      | O =>
          if String.prefix sep s
          then String.rev cur :: split_go sep (String.length sep - 1) EmptyString s'
          else split_go sep 0 (String a cur) s'
      end
  end.

Definition split (s sep : string) : list string := split_go sep 0 EmptyString s.

(** [sep.join(l)] *)
Fixpoint join (sep : string) (l : list string) : string :=
  match l with
  | [] => EmptyString
  | [x] => x
  | x :: rest => x +:+ sep +:+ join sep rest
  end.

(** [s.replace(old, new)] for a non-empty [old]. *)
Definition replace (s old new : string) : string := join new (split s old).

(** [s.split()] *)
Definition split_ws (s : string) : list string := String.words s.

Fixpoint all_digits (s : string) : bool :=
  match s with
  | EmptyString => true
  | String a s' => bool_decide (is_Some (Ascii.is_nat a)) && all_digits s'
  end.

(** [s.isdigit()], on the ASCII range. *)
Definition isdigit (s : string) : bool :=
  match s with
  | EmptyString => false
  | _ => all_digits s
  end.

Fixpoint int_go (acc : Z) (s : string) : Z :=
  match s with
  | EmptyString => acc
  | String a s' => int_go (10 * acc + Z.of_nat (default 0%nat (Ascii.is_nat a))) s'
  end.

(** [int(s)] for a string of digits. *)
Definition int (s : string) : Z := int_go 0 s.

End PyStr.

(** ** Data model *)

Inductive TaskStatus : Set :=
  PENDING | RUNNING | COMPLETED | FAILED | CANCELLED | SKIPPED.

#[global] Instance TaskStatus_eq_dec : EqDecision TaskStatus.
Proof. solve_decision. Defined.

(** Timestamps ([datetime]) are microseconds on the wall clock, as [Z];
    [execution_time] is the difference of two of them. *)
Record TaskResult : Type := mkTaskResult {
  result_task_id : string;
  status : TaskStatus;
  start_time : Z;
  end_time : option Z;
  output : string;
  error : option string;
  execution_time : Z
}.

(** A [Task] object.  [_last_url_hash] is the attribute that [check_url]
    adds to the object on its first successful poll; [None] stands for
    [hasattr(task, '_last_url_hash')] being false. *)
Record Task : Type := mkTask {
  task_id : string;
  name : string;
  command : string;
  schedule_expr : string;
  enabled : bool;
  max_retries : Z;
  timeout : Z;
  dependencies : list string;
  notify_on_success : bool;
  notify_on_failure : bool;
  last_run : option Z;
  next_run : option Z;
  retry_count : Z;
  is_running : bool;
  _last_url_hash : option Z
}.

(** [Task.__init__] with its keyword defaults filled in by the caller. *)
Definition new_task (id nm cmd expr : string) (en : bool) (retries tmo : Z)
    (deps : list string) (on_ok on_fail : bool) : Task :=
  mkTask id nm cmd expr en retries tmo deps on_ok on_fail None None 0 false None.

Definition set_last_run (v : option Z) (t : Task) : Task :=
  mkTask (task_id t) (name t) (command t) (schedule_expr t) (enabled t)
    (max_retries t) (timeout t) (dependencies t) (notify_on_success t)
    (notify_on_failure t) v (next_run t) (retry_count t) (is_running t)
    (_last_url_hash t).

Definition set_retry_count (v : Z) (t : Task) : Task :=
  mkTask (task_id t) (name t) (command t) (schedule_expr t) (enabled t)
    (max_retries t) (timeout t) (dependencies t) (notify_on_success t)
    (notify_on_failure t) (last_run t) (next_run t) v (is_running t)
    (_last_url_hash t).

Definition set_is_running (v : bool) (t : Task) : Task :=
  mkTask (task_id t) (name t) (command t) (schedule_expr t) (enabled t)
    (max_retries t) (timeout t) (dependencies t) (notify_on_success t)
    (notify_on_failure t) (last_run t) (next_run t) (retry_count t) v
    (_last_url_hash t).

Definition set_last_url_hash (v : option Z) (t : Task) : Task :=
  mkTask (task_id t) (name t) (command t) (schedule_expr t) (enabled t)
    (max_retries t) (timeout t) (dependencies t) (notify_on_success t)
    (notify_on_failure t) (last_run t) (next_run t) (retry_count t)
    (is_running t) v.

(** Task objects live in a store and are named by their position in it:
    the registry, the jobs, the threads and the timers all hold
    references to the same mutable object. *)
Definition ref : Set := nat.
Bind Scope nat_scope with ref.

(** ** The [schedule] library (third party): the job list of its default
    scheduler, with [every(..).<unit>.at(..).do(..).tag(..)], [clear(tag)]
    and the order-preserving run of the due jobs. *)

Module Schedule.

Inductive TimeUnit : Set := Minutes | Hours | Days | Weeks.

Inductive Weekday : Set := Monday | Tuesday.

(** What a job calls: the bound method [_execute_task_wrapper] with its
    task argument, or one of the two closures built by the monitors. *)
Inductive JobFunc : Set :=
| WrapperJob (t : ref)
| CheckUrl (t : ref) (url : string)
| CheckResources (t : ref).

Record Job : Set := mkJob {
  interval : Z;
  job_unit : TimeUnit;
  start_day : option Weekday;
  at_time : option string;
  job_func : JobFunc;
  tags : list string
}.

Definition digit_upto (hi : nat) (a : ascii) : bool :=
  match Ascii.is_nat a with
  | Some d => Nat.leb d hi
  | None => false
  end.

(** [MM] with a first digit of at most [hi]. *)
Definition two_digits (hi : nat) (s : string) : bool :=
  match s with
  | String a (String b EmptyString) => digit_upto hi a && digit_upto 9 b
  | _ => false
  end.

(** The formats [Job.at] accepts: [HH:MM(:SS)?] for a daily or weekday
    job, [(MM)?:SS] for an hourly one, [:SS] for a minutely one; any
    other string makes it raise [ScheduleValueError]. *)
Definition at_time_ok (u : TimeUnit) (day : option Weekday) (s : string) : bool :=
  let fields := PyStr.split s ":" in
  match u, day with
  | Days, _ | _, Some _ =>
      match fields with
      | [h; m] => two_digits 2 h && two_digits 5 m && (PyStr.int h <=? 23)
      | [h; m; sec] =>
          two_digits 2 h && two_digits 5 m && two_digits 5 sec && (PyStr.int h <=? 23)
      | _ => false
      end
  | Hours, None =>
      match fields with
      | [m; sec] => (bool_decide (m = EmptyString) || two_digits 5 m) && two_digits 5 sec
      | _ => false
      end
  | Minutes, None =>
      match fields with
      | [m; sec] => bool_decide (m = EmptyString) && two_digits 5 sec
      | _ => false
      end
  | Weeks, None => false
  end.

(** [.do(f).tag(tag)]: the job is appended to the job list. *)
Definition do_tag (j : Job) (jobs : list Job) : list Job := jobs ++ [j].

Definition has_tag (tag : string) (j : Job) : bool := bool_decide (tag ∈ tags j).

(** [schedule.clear(tag)]: keeps the jobs whose tag set lacks [tag]. *)
Definition clear (tag : string) (jobs : list Job) : list Job :=
  List.filter (fun j => negb (has_tag tag j)) jobs.

End Schedule.

Import Schedule.

(** ** The scheduler object and its surroundings *)

Inductive LogLevel : Set := INFO | WARNING | ERROR.

#[global] Instance LogLevel_eq_dec : EqDecision LogLevel.
Proof. solve_decision. Defined.

(** A JSON value as found under ["monitoring"] in the configuration file. *)
Inductive JValue : Set :=
| JNum (q : Q)
| JStr (s : string)
| JNull.

(** The parts of [self.config] that the code reads: the two credentials
    ([""] when the key is missing) and the ["monitoring"] dictionary. *)
Record Config : Set := mkConfig {
  email_username : string;
  email_password : string;
  monitoring : list (string * JValue)
}.

(** The configuration written by [_load_config] when no file exists. *)
Definition default_config : Config :=
  mkConfig "" ""
    [("cpu_threshold", JNum 80); ("memory_threshold", JNum 80);
     ("disk_threshold", JNum 90)].

(** A started [watchdog] observer thread with its handler's task id. *)
Record Observer : Set := mkObserver {
  obs_task_id : string;
  obs_path : string;
  obs_alive : bool
}.

Record Scheduler : Type := mkScheduler {
  heap : list Task;                    (* the Task objects *)
  tasks : gmap string ref;             (* self.tasks *)
  jobs : list Job;                     (* schedule.jobs *)
  file_observers : gmap string nat;    (* self.file_observers, into [observers] *)
  observers : list Observer;           (* observer threads ever started *)
  config : Config;                     (* self.config *)
  running : bool;                      (* self.running *)
  history : list TaskResult;           (* rows of task_history, oldest first *)
  log : list (LogLevel * string);      (* self.logger *)
  threads : list ref;                  (* Thread(target=_execute_task) started, body not yet entered *)
  timers : list (Z * ref);             (* Timer(delay, _execute_task) pending *)
  executing : list (ref * TaskResult); (* _execute_task frames waiting on their action *)
  outbox : list (string * TaskStatus)  (* notification mails handed to SMTP *)
}.

Definition set_heap (f : list Task -> list Task) (s : Scheduler) : Scheduler :=
  mkScheduler (f (heap s)) (tasks s) (jobs s) (file_observers s) (observers s)
    (config s) (running s) (history s) (log s) (threads s) (timers s)
    (executing s) (outbox s).

Definition set_tasks (f : gmap string ref -> gmap string ref) (s : Scheduler) : Scheduler :=
  mkScheduler (heap s) (f (tasks s)) (jobs s) (file_observers s) (observers s)
    (config s) (running s) (history s) (log s) (threads s) (timers s)
    (executing s) (outbox s).

Definition set_jobs (f : list Job -> list Job) (s : Scheduler) : Scheduler :=
  mkScheduler (heap s) (tasks s) (f (jobs s)) (file_observers s) (observers s)
    (config s) (running s) (history s) (log s) (threads s) (timers s)
    (executing s) (outbox s).

Definition set_file_observers (f : gmap string nat -> gmap string nat)
    (s : Scheduler) : Scheduler :=
  mkScheduler (heap s) (tasks s) (jobs s) (f (file_observers s)) (observers s)
    (config s) (running s) (history s) (log s) (threads s) (timers s)
    (executing s) (outbox s).

Definition set_observers (f : list Observer -> list Observer) (s : Scheduler) : Scheduler :=
  mkScheduler (heap s) (tasks s) (jobs s) (file_observers s) (f (observers s))
    (config s) (running s) (history s) (log s) (threads s) (timers s)
    (executing s) (outbox s).

Definition set_running (v : bool) (s : Scheduler) : Scheduler :=
  mkScheduler (heap s) (tasks s) (jobs s) (file_observers s) (observers s)
    (config s) v (history s) (log s) (threads s) (timers s)
    (executing s) (outbox s).

Definition set_history (f : list TaskResult -> list TaskResult) (s : Scheduler) : Scheduler :=
  mkScheduler (heap s) (tasks s) (jobs s) (file_observers s) (observers s)
    (config s) (running s) (f (history s)) (log s) (threads s) (timers s)
    (executing s) (outbox s).

Definition set_log (f : list (LogLevel * string) -> list (LogLevel * string))
    (s : Scheduler) : Scheduler :=
  mkScheduler (heap s) (tasks s) (jobs s) (file_observers s) (observers s)
    (config s) (running s) (history s) (f (log s)) (threads s) (timers s)
    (executing s) (outbox s).

Definition set_threads (f : list ref -> list ref) (s : Scheduler) : Scheduler :=
  mkScheduler (heap s) (tasks s) (jobs s) (file_observers s) (observers s)
    (config s) (running s) (history s) (log s) (f (threads s)) (timers s)
    (executing s) (outbox s).

Definition set_timers (f : list (Z * ref) -> list (Z * ref)) (s : Scheduler) : Scheduler :=
  mkScheduler (heap s) (tasks s) (jobs s) (file_observers s) (observers s)
    (config s) (running s) (history s) (log s) (threads s) (f (timers s))
    (executing s) (outbox s).

Definition set_executing (f : list (ref * TaskResult) -> list (ref * TaskResult))
    (s : Scheduler) : Scheduler :=
  mkScheduler (heap s) (tasks s) (jobs s) (file_observers s) (observers s)
    (config s) (running s) (history s) (log s) (threads s) (timers s)
    (f (executing s)) (outbox s).

Definition set_outbox (f : list (string * TaskStatus) -> list (string * TaskStatus))
    (s : Scheduler) : Scheduler :=
  mkScheduler (heap s) (tasks s) (jobs s) (file_observers s) (observers s)
    (config s) (running s) (history s) (log s) (threads s) (timers s)
    (executing s) (f (outbox s)).

(** [TaskScheduler.__init__] with no [tasks.json] on disk. *)
Definition new_scheduler (cfg : Config) : Scheduler :=
  mkScheduler [] ∅ [] ∅ [] cfg false [] [] [] [] [] [].

(** [self.logger.<level>(msg)] *)
Definition logger (lvl : LogLevel) (msg : string) (s : Scheduler) : Scheduler :=
  set_log (fun l => l ++ [(lvl, msg)]) s.

(** An assignment to attributes of the Task object [t]. *)
Definition update_task (t : ref) (f : Task -> Task) (s : Scheduler) : Scheduler :=
  set_heap (fun h => match h !! t with
                     | Some task => <[t := f task]> h
                     | None => h
                     end) s.

(** What a call returns: normally, or by an exception that reaches the
    caller. *)
Inductive Outcome (A : Type) : Type :=
| Returned (a : A)
| Raised (e : string).
Arguments Returned {A} a.
Arguments Raised {A} e.

(** What the outside world answers during one call: the wall clock, the
    child process, the HTTP server, SQLite, the SMTP server, [psutil] and
    Python's [hash] on strings. *)
Inductive ProcOutcome : Set :=
| Exited (returncode : Z) (out err : string)
| TimedOut
| PopenError (msg : string).

Inductive HttpOutcome : Set :=
| Response (status_code : Z) (text : string)
| RequestError (msg : string).

Record Readings : Set := mkReadings {
  cpu_percent : Q;
  memory_percent : Q;
  disk_percent : Q
}.

Record World : Type := mkWorld {
  clock_gate : Z;                 (* datetime.now() in _check_dependencies *)
  clock_start : Z;                (* datetime.now() at the top of _execute_task *)
  clock_end : Z;                  (* datetime.now() in its finally block *)
  popen : ProcOutcome;
  http_get : HttpOutcome;
  db_error : option string;       (* the exception of the INSERT, if any *)
  smtp_error : option string;     (* the exception while mailing, if any *)
  psutil : Outcome Readings;
  py_hash : string -> Z
}.

(** ** Installing triggers *)

(** [schedule.every(n).<unit>[.at(ts)].do(f).tag(tag)]; [Job.at] raises on
    a time string it does not accept, before the job joins the list. *)
Definition every_do (n : Z) (u : TimeUnit) (day : option Weekday)
    (ts : option string) (f : JobFunc) (tag : string) (s : Scheduler)
    : Outcome Scheduler :=
  let install := set_jobs (do_tag (mkJob n u day ts f [tag])) s in
  match ts with
  | Some str =>
      if at_time_ok u day str then Returned install
      else Raised "Invalid time format"
  | None => Returned install
  end.

(** [len(parts) >= 3 and parts[1].isdigit()], giving [int(parts[1])]. *)
Definition counted (parts : list string) : option Z :=
  match parts with
  | _ :: p1 :: _ :: _ => if PyStr.isdigit p1 then Some (PyStr.int p1) else None
  | _ => None
  end.

(** [expr.split("at")[1].strip()] *)
Definition after_at (expr : string) : Outcome string :=
  match PyStr.split expr "at" with
  | _ :: x :: _ => Returned (PyStr.strip x)
  | _ => Raised "list index out of range"
  end.

Definition _parse_every_expression (t : ref) (task : Task) (expr : string)
    (s : Scheduler) : Outcome Scheduler :=
  let parts := PyStr.split_ws expr in
  let wrapper := WrapperJob t in
  let id := task_id task in
  if PyStr.contains "minute" expr then
    match counted parts with
    | Some n => every_do n Minutes None None wrapper id s
    | None => every_do 1 Minutes None None wrapper id s
    end
  else if PyStr.contains "hour" expr then
    if PyStr.contains "at" expr then
      match after_at expr with
      | Returned time_part => every_do 1 Hours None (Some time_part) wrapper id s
      | Raised e => Raised e
      end
    else
      match counted parts with
      | Some n => every_do n Hours None None wrapper id s
      | None => every_do 1 Hours None None wrapper id s
      end
  else if PyStr.contains "day" expr then
    if PyStr.contains "at" expr then
      match after_at expr with
      | Returned time_part => every_do 1 Days None (Some time_part) wrapper id s
      | Raised e => Raised e
      end
    else every_do 1 Days None None wrapper id s
  else if PyStr.contains "week" expr then
    match counted parts with
    | Some n => every_do n Weeks None None wrapper id s
    | None => every_do 1 Weeks None None wrapper id s
    end
  else if PyStr.contains "monday" expr then
    match (if PyStr.contains "at" expr then after_at expr else Returned "09:00") with
    | Returned time_part => every_do 1 Weeks (Some Monday) (Some time_part) wrapper id s
    | Raised e => Raised e
    end
  else if PyStr.contains "tuesday" expr then
    match (if PyStr.contains "at" expr then after_at expr else Returned "09:00") with
    | Returned time_part => every_do 1 Weeks (Some Tuesday) (Some time_part) wrapper id s
    | Raised e => Raised e
    end
  else Returned s.

Definition _parse_at_expression (t : ref) (task : Task) (expr : string)
    (s : Scheduler) : Outcome Scheduler :=
  let time_part := PyStr.strip (PyStr.replace expr "at" "") in
  if PyStr.contains "daily" time_part then
    let time_str := PyStr.strip (PyStr.replace time_part "daily" "") in
    every_do 1 Days None (Some time_str) (WrapperJob t) (task_id task) s
  else every_do 1 Days None (Some time_part) (WrapperJob t) (task_id task) s.

Definition _parse_cron_expression (t : ref) (task : Task) (cron_expr : string)
    (s : Scheduler) : Outcome Scheduler :=
  let s := logger WARNING
    ("Cron expressions require additional implementation for task " +:+ task_id task) s in
  every_do 1 Days None None (WrapperJob t) (task_id task) s.

(** The observer is taken to start without error. *)
Definition _setup_file_watcher (t : ref) (task : Task) (s : Scheduler)
    : Outcome Scheduler :=
  if PyStr.contains "watch:" (command task) then
    match PyStr.split (command task) "watch:" with
    | _ :: x :: _ =>
        let watch_path := PyStr.strip x in
        let n := length (observers s) in
        let s := set_observers (fun l => l ++ [mkObserver (task_id task) watch_path true]) s in
        let s := set_file_observers (fun m => <[task_id task := n]> m) s in
        Returned (logger INFO
          ("File watcher setup for " +:+ task_id task +:+ " on " +:+ watch_path) s)
    | _ => Raised "list index out of range"
    end
  else Returned s.

Definition _setup_url_monitor (t : ref) (task : Task) (expr : string)
    (s : Scheduler) : Outcome Scheduler :=
  let url := PyStr.strip (PyStr.replace expr "on_url_change:" "") in
  every_do 5 Minutes None None (CheckUrl t url) (task_id task +:+ "_url_monitor") s.

Definition _setup_resource_monitor (t : ref) (task : Task) (s : Scheduler)
    : Outcome Scheduler :=
  every_do 1 Minutes None None (CheckResources t)
    (task_id task +:+ "_resource_monitor") s.

(** [expr[5:]] *)
Definition drop5 (s : string) : string :=
  String.substring 5 (String.length s - 5) s.

Definition _schedule_task (t : ref) (task : Task) (s : Scheduler) : Scheduler :=
  if negb (enabled task) then s
  else
    let expr := PyStr.strip (PyStr.lower (schedule_expr task)) in
    let attempt :=
      if PyStr.startswith expr "every" then _parse_every_expression t task expr s
      else if PyStr.startswith expr "at" then _parse_at_expression t task expr s
      else if PyStr.startswith expr "cron:" then
        _parse_cron_expression t task (PyStr.strip (drop5 expr)) s
      else if bool_decide (expr = "on_file_change") then _setup_file_watcher t task s
      else if PyStr.startswith expr "on_url_change" then _setup_url_monitor t task expr s
      else if bool_decide (expr = "on_resource_threshold") then
        _setup_resource_monitor t task s
      else Returned (logger WARNING
        ("Unknown schedule expression for task " +:+ task_id task +:+ ": " +:+ expr) s)
    in
    match attempt with
    | Returned s' => s'
    | Raised e =>
        logger ERROR ("Error scheduling task " +:+ task_id task +:+ ": " +:+ e) s
    end.

(** ** Registry *)

(** [add_task(task)], called with a freshly built Task object, which takes
    the next free place of the store.  Writing [tasks.json] is left out:
    [_save_tasks] catches every exception and changes nothing read here. *)
Definition add_task (task : Task) (s : Scheduler) : bool * Scheduler :=
  let id := task_id task in
  let s := match tasks s !! id with
           | Some _ => logger WARNING ("Task " +:+ id +:+ " already exists, updating...") s
           | None => s
           end in
  let t := length (heap s) in
  let s := set_heap (fun h => h ++ [task]) s in
  let s := set_tasks (fun m => <[id := t]> m) s in
  let s := _schedule_task t task s in
  (true, logger INFO ("Added task: " +:+ name task +:+ " (" +:+ id +:+ ")") s).

(** [observer.stop()] on the observer kept under [n]. *)
Definition stop_observer (n : nat) (l : list Observer) : list Observer :=
  match l !! n with
  | Some o => <[n := mkObserver (obs_task_id o) (obs_path o) false]> l
  | None => l
  end.

Definition remove_task (id : string) (s : Scheduler) : bool * Scheduler :=
  match tasks s !! id with
  | Some t =>
      let nm := match heap s !! t with Some task => name task | None => "" end in
      let s := set_jobs (clear id) s in
      let s := match file_observers s !! id with
               | Some n =>
                   set_file_observers (delete id) (set_observers (stop_observer n) s)
               | None => s
               end in
      let s := set_tasks (delete id) s in
      (true, logger INFO ("Removed task: " +:+ nm +:+ " (" +:+ id +:+ ")") s)
  | None => (false, logger WARNING ("Task " +:+ id +:+ " not found") s)
  end.

(** ** Dependency gate *)

(** [timedelta(hours=24)] *)
Definition freshness_window : Z := 24 * 3600 * 1000000.

(** The loop of [_check_dependencies] over the prerequisite ids; the clock
    is read once for the whole check. *)
Fixpoint check_dependencies_loop (deps : list string) (id : string) (now : Z)
    (s : Scheduler) : bool * Scheduler :=
  match deps with
  | [] => (true, s)
  | dep_id :: rest =>
      match tasks s !! dep_id with
      | None =>
          (false, logger ERROR
             ("Dependency " +:+ dep_id +:+ " not found for task " +:+ id) s)
      | Some d =>
          match heap s !! d with
          | None => (false, s)
          | Some dep_task =>
              match last_run dep_task with
              | None => (false, s)
              | Some lr =>
                  if now - lr >? freshness_window then (false, s)
                  else check_dependencies_loop rest id now s
              end
          end
      end
  end.

Definition _check_dependencies (task : Task) (now : Z) (s : Scheduler)
    : bool * Scheduler :=
  check_dependencies_loop (dependencies task) (task_id task) now s.

(** ** Executor *)

Definition _execute_python_function (func_name : string) : string :=
  "Executed Python function: " +:+ func_name.

Definition _execute_http_request (url : string) (w : World) : Outcome string :=
  match http_get w with
  | Response code text =>
      Returned ("HTTP " +:+ pretty code +:+ ": " +:+ String.substring 0 200 text +:+ "...")
  | RequestError msg => Raised ("HTTP request failed: " +:+ msg)
  end.

Definition with_outcome (st : TaskStatus) (out : string) (err : option string)
    (r : TaskResult) : TaskResult :=
  mkTaskResult (result_task_id r) st (start_time r) (end_time r) out err
    (execution_time r).

Definition with_end (e : Z) (r : TaskResult) : TaskResult :=
  mkTaskResult (result_task_id r) (status r) (start_time r) (Some e) (output r)
    (error r) (e - start_time r).

(** The [if]/[elif]/[else] on the command inside the [try] of
    [_execute_task]: the result as the branch leaves it, or the exception
    that leaves the branch. *)
Definition run_action (task : Task) (result : TaskResult) (w : World)
    (s : Scheduler) : Outcome (TaskResult * Scheduler) :=
  let cmd := command task in
  if PyStr.startswith cmd "python:" then
    let output := _execute_python_function
                    (String.substring 7 (String.length cmd - 7) cmd) in
    Returned (result, s)
  else if PyStr.startswith cmd "http:" || PyStr.startswith cmd "https:" then
    match _execute_http_request cmd w with
    | Returned output => Returned (result, s)
    | Raised e => Raised e
    end
  else
    match popen w with
    | PopenError msg => Raised msg
    | Exited rc out err =>
        if rc =? 0 then
          Returned (with_outcome COMPLETED out (error result) result,
                    logger INFO ("Task " +:+ task_id task +:+ " completed successfully") s)
        else
          Returned (with_outcome FAILED (output result) (Some err) result,
                    logger ERROR ("Task " +:+ task_id task +:+
                                  " failed with return code " +:+ pretty rc) s)
    | TimedOut =>
        Returned (with_outcome FAILED (output result)
                    (Some ("Task timed out after " +:+ pretty (timeout task) +:+ " seconds"))
                    result,
                  logger ERROR ("Task " +:+ task_id task +:+ " timed out") s)
    end.

Definition _save_task_result (result : TaskResult) (w : World) (s : Scheduler)
    : Scheduler :=
  match db_error w with
  | None => set_history (fun h => h ++ [result]) s
  | Some e => logger ERROR ("Error saving task result: " +:+ e) s
  end.

Definition _send_notifications (task : Task) (result : TaskResult) (w : World)
    (s : Scheduler) : Scheduler :=
  let should_notify :=
    (bool_decide (status result = COMPLETED) && notify_on_success task) ||
    (bool_decide (status result = FAILED) && notify_on_failure task) in
  if negb should_notify then s
  else if bool_decide (email_username (config s) = "") ||
          bool_decide (email_password (config s) = "") then s
  else
    match smtp_error w with
    | None =>
        logger INFO ("Notification sent for task " +:+ task_id task)
          (set_outbox (fun o => o ++ [(task_id task, status result)]) s)
    | Some e => logger ERROR ("Error sending notification: " +:+ e) s
    end.

(** [_execute_task] up to the point where it waits for its action:
    [is_running] is set and the result is created in status running. *)
Definition begin_execution (t : ref) (now : Z) (s : Scheduler)
    : option (TaskResult * Scheduler) :=
  match heap s !! t with
  | None => None
  | Some task =>
      let s := update_task t (set_is_running true) s in
      let result := mkTaskResult (task_id task) RUNNING now None "" None 0 in
      Some (result,
            logger INFO ("Executing task: " +:+ name task +:+ " (" +:+ task_id task +:+ ")") s)
  end.

(** The [if] on retries that ends the [finally] block. *)
Definition handle_retries (t : ref) (result : TaskResult) (s : Scheduler) : Scheduler :=
  match heap s !! t with
  | None => s
  | Some task =>
      if bool_decide (status result = FAILED) && (retry_count task <? max_retries task)
      then
        let n := retry_count task + 1 in
        let s := update_task t (set_retry_count n) s in
        let s := logger INFO ("Retrying task " +:+ task_id task +:+ " (attempt " +:+
                              pretty n +:+ "/" +:+ pretty (max_retries task) +:+ ")") s in
        set_timers (fun l => l ++ [(60, t)]) s
      else s
  end.

(** The rest of [_execute_task]: the action's outcome, the update of
    [last_run] and [retry_count], the [except] and the [finally] block. *)
Definition finish_execution (t : ref) (result : TaskResult) (w : World)
    (s : Scheduler) : Scheduler :=
  match heap s !! t with
  | None => s
  | Some task =>
      let '(result, s) :=
        match run_action task result w s with
        | Returned (result', s') =>
            (result',
             update_task t
               (fun x => set_retry_count 0 (set_last_run (Some (start_time result)) x)) s')
        | Raised e =>
            (with_outcome FAILED (output result) (Some e) result,
             logger ERROR ("Error executing task " +:+ task_id task +:+ ": " +:+ e) s)
        end in
      let result := with_end (clock_end w) result in
      let s := update_task t (set_is_running false) s in
      let s := _save_task_result result w s in
      let s := _send_notifications task result w s in
      handle_retries t result s
  end.

Definition _execute_task (t : ref) (w : World) (s : Scheduler) : Scheduler :=
  match begin_execution t (clock_start w) s with
  | Some (result, s') => finish_execution t result w s'
  | None => s
  end.

(** The two guards of [_execute_task_wrapper]: whether the call goes on
    to [_execute_task]. *)
Definition wrapper_guards (t : ref) (w : World) (s : Scheduler) : bool * Scheduler :=
  match heap s !! t with
  | None => (false, s)
  | Some task =>
      if is_running task then
        (false, logger WARNING ("Task " +:+ task_id task +:+ " is already running, skipping") s)
      else
        let '(ok, s) := _check_dependencies task (clock_gate w) s in
        if ok then (true, s)
        else (false, logger INFO
                ("Dependencies not met for task " +:+ task_id task +:+ ", skipping") s)
  end.

Definition _execute_task_wrapper (t : ref) (w : World) (s : Scheduler) : Scheduler :=
  let '(go, s) := wrapper_guards t w s in
  if go then _execute_task t w s else s.

(** [run_task_immediately]: the new thread is started and the call
    returns; the thread's body is [_execute_task(task)]. *)
Definition run_task_immediately (id : string) (s : Scheduler) : bool * Scheduler :=
  match tasks s !! id with
  | None => (false, logger ERROR ("Task " +:+ id +:+ " not found") s)
  | Some t => (true, set_threads (fun l => l ++ [t]) s)
  end.

(** ** Monitors *)


(** The closure [check_url] of [_setup_url_monitor]; its [try]/[except]
    turns a failed request into a log entry. *)
Definition check_url (t : ref) (url : string) (w : World) (s : Scheduler) : Scheduler :=
  match heap s !! t with
  | None => s
  | Some task =>
      match http_get w with
      | RequestError e => logger ERROR ("Error checking URL " +:+ url +:+ ": " +:+ e) s
      | Response _ text =>
          let content_hash := py_hash w text in
          match _last_url_hash task with
          | None => update_task t (set_last_url_hash (Some content_hash)) s
          | Some h =>
              if bool_decide (content_hash ≠ h) then
                let s := update_task t (set_last_url_hash (Some content_hash)) s in
                snd (run_task_immediately (task_id task) s)
              else s
          end
      end
  end.

(** [d.get(key, default)] on a dictionary with string keys. *)
Fixpoint dict_get (d : list (string * JValue)) (key : string) (dflt : JValue) : JValue :=
  match d with
  | [] => dflt
  | (k, v) :: rest => if bool_decide (k = key) then v else dict_get rest key dflt
  end.

(** [x > v] for a float [x]: a comparison with a number, a [TypeError]
    with a string or [None]. *)
Definition py_gt (x : Q) (v : JValue) : Outcome bool :=
  match v with
  | JNum q => Returned (negb (Qle_bool x q))
  | JStr _ => Raised "'>' not supported between instances of 'float' and 'str'"
  | JNull => Raised "'>' not supported between instances of 'float' and 'NoneType'"
  end.

(** [a or b], [b] evaluated only when [a] is false. *)
Definition py_or (a : Outcome bool) (b : Outcome bool) : Outcome bool :=
  match a with
  | Returned true => Returned true
  | Returned false => b
  | Raised e => Raised e
  end.

(** The closure [check_resources] of [_setup_resource_monitor]; it has no
    [try] of its own. *)
Definition check_resources (t : ref) (w : World) (s : Scheduler) : Outcome Scheduler :=
  match psutil w with
  | Raised e => Raised e
  | Returned r =>
      let cfg := monitoring (config s) in
      let cpu_threshold := dict_get cfg "cpu_threshold" (JNum 80) in
      let memory_threshold := dict_get cfg "memory_threshold" (JNum 80) in
      let disk_threshold := dict_get cfg "disk_threshold" (JNum 90) in
      match py_or (py_gt (cpu_percent r) cpu_threshold)
              (py_or (py_gt (memory_percent r) memory_threshold)
                     (py_gt (disk_percent r) disk_threshold)) with
      | Raised e => Raised e
      | Returned true =>
          match heap s !! t with
          | Some task => Returned (snd (run_task_immediately (task_id task) s))
          | None => Returned s
          end
      | Returned false => Returned s
      end
  end.

(** ** Scheduler loop *)

(** [job.run()]: the call of the job's function.  The wrapper and the URL
    poll are taken to return: this holds when the ["email"] entry of the
    configuration is a dictionary, every [last_run] is a naive datetime
    as [datetime.now()] gives, [max_retries] is an integer and the retry
    timer's thread can be started, which is how the [Config] and [Task]
    records here are typed.  Outside that, their statements that stand
    outside every [try] can raise as [check_resources] does. *)
Definition run_job (j : Job) (w : World) (s : Scheduler) : Outcome Scheduler :=
  match job_func j with
  | WrapperJob t => Returned (_execute_task_wrapper t w s)
  | CheckUrl t url => Returned (check_url t url w s)
  | CheckResources t => check_resources t w s
  end.

Fixpoint run_jobs (l : list Job) (w : Job -> World) (s : Scheduler) : Outcome Scheduler :=
  match l with
  | [] => Returned s
  | j :: rest =>
      match run_job j (w j) s with
      | Returned s' => run_jobs rest w s'
      | Raised e => Raised e
      end
  end.

(** [schedule.run_pending()]: the jobs the library finds due are run one
    after the other, and an exception of a job leaves [run_pending].
    Which jobs are due is the library's reading of the clock, [due]. *)
Definition run_pending (due : Job -> bool) (w : Job -> World) (s : Scheduler)
    : Outcome Scheduler :=
  run_jobs (List.filter due (jobs s)) w s.

(** How the thread of [run_scheduler] stands after the iterations it was
    given: still looping, left the loop because [self.running] is false,
    or ended by an exception. *)
Inductive LoopState : Set :=
| Looping
| Stopped
| Died (e : string).

(** [run_scheduler] inside [start]: [while self.running:
    schedule.run_pending(); time.sleep(1)], one list element per
    iteration. *)
Fixpoint run_scheduler (iters : list ((Job -> bool) * (Job -> World)))
    (s : Scheduler) : LoopState * Scheduler :=
  if negb (running s) then (Stopped, s)
  else
    match iters with
    | [] => (Looping, s)
    | (due, w) :: rest =>
        match run_pending due w s with
        | Returned s' => run_scheduler rest s'
        | Raised e => (Died e, s)
        end
    end.

(** [start()]; the thread it starts runs [run_scheduler]. *)
Definition start (s : Scheduler) : Scheduler :=
  if running s then logger WARNING "Scheduler is already running" s
  else
    let s := logger INFO "Starting task scheduler..." (set_running true s) in
    logger INFO ("Task scheduler started with " +:+ pretty (size (tasks s)) +:+ " tasks") s.

(** ** Worker threads

    The threads started by [run_task_immediately] and the retry timers
    run [_execute_task] next to the polling thread.  An event is one
    atomic stretch of one thread. *)

Inductive Event : Type :=
| CallRunNow (id : string)
    (* run_task_immediately(id), from the command line or a watcher *)
| ThreadEnters (i : nat) (now : Z)
    (* the i-th started thread enters _execute_task *)
| TimerFires (i : nat) (now : Z)
    (* the i-th pending timer fires and enters _execute_task *)
| WrapperFires (t : ref) (w : World)
    (* the polling thread runs _execute_task_wrapper(task) up to the action *)
| ActionEnds (i : nat) (w : World).
    (* the i-th waiting frame gets its action's outcome and runs to its end *)

Definition enter (t : ref) (now : Z) (s : Scheduler) : Scheduler :=
  match begin_execution t now s with
  | Some (result, s') => set_executing (fun l => l ++ [(t, result)]) s'
  | None => s
  end.

Definition do_event (e : Event) (s : Scheduler) : Scheduler :=
  match e with
  | CallRunNow id => snd (run_task_immediately id s)
  | ThreadEnters i now =>
      match threads s !! i with
      | Some t => enter t now (set_threads (delete i) s)
      | None => s
      end
  | TimerFires i now =>
      match timers s !! i with
      | Some (_, t) => enter t now (set_timers (delete i) s)
      | None => s
      end
  | WrapperFires t w =>
      let '(go, s') := wrapper_guards t w s in
      if go then enter t (clock_start w) s' else s'
  | ActionEnds i w =>
      match executing s !! i with
      | Some (t, result) => finish_execution t result w (set_executing (delete i) s)
      | None => s
      end
  end.

Definition run_events (es : list Event) (s : Scheduler) : Scheduler :=
  fold_left (fun s e => do_event e s) es s.

(** The executions of task object [t] that are in the running state. *)
Definition running_executions (t : ref) (s : Scheduler) : nat :=
  length (List.filter
            (fun fr => bool_decide (fr.1 = t) && bool_decide (status fr.2 = RUNNING))
            (executing s)).

(** ** Vocabulary of the properties *)



(** [s'] is [s] with [l] appended to the log and nothing else changed. *)
Definition logged (l : list (LogLevel * string)) (s s' : Scheduler) : Prop :=
  s' = set_log (fun old => old ++ l) s.

(** The jobs that carry the tag [tag]. *)
Definition jobs_tagged (tag : string) (s : Scheduler) : list Job :=
  List.filter (has_tag tag) (jobs s).

(** The rows of the history that belong to task [id]. *)
Definition rows_of (id : string) (s : Scheduler) : list TaskResult :=
  List.filter (fun r => bool_decide (result_task_id r = id)) (history s).

(** ** Scenarios *)

(** A world in which the child process ends as [p]; the three clock
    readings are given, everything else works and is quiet. *)
Definition world (gate started ended : Z) (p : ProcOutcome) : World :=
  mkWorld gate started ended p (Response 200 "") None None
    (Returned (mkReadings 10 20 30)) (fun txt => Z.of_nat (String.length txt)).

Definition second : Z := 1000000.

(** The task T1 of the retry scenario: every minute, one retry, a command
    that always exits non-zero. *)
Definition T1 : Task :=
  new_task "T1" "Always fails" "exit 1" "every 1 minute" true 1 300 [] false true.

(** The task T2 of the dependency scenario: it depends on T1. *)
Definition T2 : Task :=
  new_task "T2" "After T1" "echo done" "every 1 minute" true 0 300 ["T1"] false true.

Definition exit_1 : ProcOutcome := Exited 1 "" "boom".
Definition exit_0 : ProcOutcome := Exited 0 "done" "".

Definition with_T1 : Scheduler := (add_task T1 (new_scheduler default_config)).2.
Definition with_T1_T2 : Scheduler := (add_task T2 with_T1).2.

(** A disabled task with a prerequisite that is not registered. *)
Definition dormant : Task :=
  new_task "D" "Disabled" "echo hi" "every 1 minute" false 0 300 ["missing"] false true.

Definition with_dormant : Scheduler := (add_task dormant (new_scheduler default_config)).2.

(** A task polled at a URL, and the world in which the page reads [txt];
    the hash of a text is taken to be its length. *)
Definition U : Task :=
  new_task "U" "Status page" "echo changed" "on_url_change: http://example.com/status"
    true 0 300 [] false true.

Definition with_U : Scheduler := (add_task U (new_scheduler default_config)).2.

Definition page (txt : string) : World :=
  mkWorld 0 0 0 exit_0 (Response 200 txt) None None
    (Returned (mkReadings 10 20 30)) (fun x => Z.of_nat (String.length x)).



(** The warnings in the log. *)
Definition warnings (s : Scheduler) : list (LogLevel * string) :=
  List.filter (fun e => bool_decide (e.1 = WARNING)) (log s).

(** Identity and status of the rows of the history, oldest first. *)
Definition outcomes (s : Scheduler) : list (string * TaskStatus) :=
  map (fun r => (result_task_id r, status r)) (history s).

(** A task run when a resource threshold is exceeded, in a scheduler that
    was started. *)
Definition R : Task :=
  new_task "R" "Free space" "echo cleanup" "on_resource_threshold" true 0 300 []
    false true.

Definition with_R (cfg : Config) : Scheduler :=
  start (add_task R (new_scheduler cfg)).2.

(** [psutil.disk_usage('/')] raises. *)
Definition psutil_down : World :=
  mkWorld 0 0 0 exit_0 (Response 200 "") None None
    (Raised "[Errno 13] Permission denied: '/'") (fun _ => 0).

(** A configuration file whose CPU threshold is written as a string. *)
Definition string_threshold : Config :=
  mkConfig "" "" [("cpu_threshold", JStr "80")].

(** A task on a five-minute interval, and one on a file watch. *)
Definition A : Task :=
  new_task "A" "Report" "echo report" "every 5 minutes" true 0 300 [] false true.

Definition F : Task :=
  new_task "F" "On change" "watch: /tmp/inbox" "on_file_change" true 0 300 [] false true.

(** ** Vocabulary of the further properties *)

(** A prerequisite id that lets the gate pass at time [now]: it is
    registered and its task last ran at most 24 hours ago. *)
Definition prerequisite_met (s : Scheduler) (now : Z) (dep_id : string) : Prop :=
  ∃ d dep_task lr, tasks s !! dep_id = Some d ∧ heap s !! d = Some dep_task ∧
    last_run dep_task = Some lr ∧ now - lr <= freshness_window.

(** Two states of a Task object that differ at most in the three fields
    [last_run], [retry_count] and [is_running]: the definition of the
    task, [next_run] and the stored URL hash are the same. *)
Definition same_definition (a b : Task) : Prop :=
  task_id b = task_id a ∧ name b = name a ∧ command b = command a ∧
  schedule_expr b = schedule_expr a ∧ enabled b = enabled a ∧
  max_retries b = max_retries a ∧ timeout b = timeout a ∧
  dependencies b = dependencies a ∧ notify_on_success b = notify_on_success a ∧
  notify_on_failure b = notify_on_failure a ∧ next_run b = next_run a ∧
  _last_url_hash b = _last_url_hash a.

(** [s'] differs from [s] at most in the fields [last_run], [retry_count]
    and [is_running] of the Task object [t], the history, the log, the
    timers and the outbox. *)
Definition runtime_step (t : ref) (s s' : Scheduler) : Prop :=
  tasks s' = tasks s ∧ jobs s' = jobs s ∧ file_observers s' = file_observers s ∧
  observers s' = observers s ∧ config s' = config s ∧ running s' = running s ∧
  threads s' = threads s ∧ executing s' = executing s ∧
  length (heap s') = length (heap s) ∧
  (∀ t', t' ≠ t -> heap s' !! t' = heap s !! t') ∧
  (∀ task, heap s !! t = Some task ->
     ∃ task', heap s' !! t = Some task' ∧ same_definition task task').

(** The world [w] with another answer of the SMTP server, and with another
    answer of SQLite. *)
Definition with_smtp (e : option string) (w : World) : World :=
  mkWorld (clock_gate w) (clock_start w) (clock_end w) (popen w) (http_get w)
    (db_error w) e (psutil w) (py_hash w).

Definition with_db (e : option string) (w : World) : World :=
  mkWorld (clock_gate w) (clock_start w) (clock_end w) (popen w) (http_get w)
    e (smtp_error w) (psutil w) (py_hash w).

(** A configuration with mail credentials, and a task that calls a Python
    function and asks for a mail on success. *)
Definition mail_config : Config := mkConfig "ops@example.com" "secret" [].

Definition P : Task :=
  new_task "P" "Build report" "python: build_report" "every hour" true 2 300 []
    true true.

Definition with_P : Scheduler := (add_task P (new_scheduler mail_config)).2.

(** [k] calls of [_execute_task] on task object [t], one after the other,
    each in the world [w]: a first attempt and the attempts started by the
    retry timers. *)
Fixpoint attempts (k : nat) (t : ref) (w : World) (s : Scheduler) : Scheduler :=
  match k with
  | O => s
  | S k' => _execute_task t w (attempts k' t w s)
  end.

(** A task that calls a webhook, with three retries, and a world in which
    the request fails. *)
Definition H : Task :=
  new_task "H" "Webhook" "http://hooks.example.com/ping" "every hour" true 3 300 []
    false true.

Definition with_H : Scheduler := (add_task H (new_scheduler default_config)).2.

Definition unreachable : World :=
  mkWorld 0 0 second exit_0 (RequestError "connection refused") None None
    (Returned (mkReadings 10 20 30)) (fun _ => 0).

(** The five things [_schedule_task] can do; a monitor is installed only
    for an expression of its kind. *)
Inductive Installed (t : ref) (task : Task) (s : Scheduler) : Scheduler -> Prop :=
| InstalledNothing l :
    Installed t task s (set_log (fun old => old ++ l) s)
| InstalledWrapper l n u ts :
    Installed t task s
      (set_jobs (do_tag (mkJob n u None ts (WrapperJob t) [task_id task]))
         (set_log (fun old => old ++ l) s))
| InstalledWatcher l path :
    Installed t task s
      (set_log (fun old => old ++ l)
         (set_file_observers (fun m => <[task_id task := length (observers s)]> m)
            (set_observers (fun o => o ++ [mkObserver (task_id task) path true]) s)))
| InstalledUrlMonitor url :
    PyStr.startswith (PyStr.strip (PyStr.lower (schedule_expr task))) "on_url_change"
    = true ->
    Installed t task s
      (set_jobs (do_tag (mkJob 5 Minutes None None (CheckUrl t url)
                           [task_id task +:+ "_url_monitor"])) s)
| InstalledResourceMonitor :
    PyStr.strip (PyStr.lower (schedule_expr task)) = "on_resource_threshold" ->
    Installed t task s
      (set_jobs (do_tag (mkJob 1 Minutes None None (CheckResources t)
                           [task_id task +:+ "_resource_monitor"])) s).

(** The tags a trigger of task [id] can carry. *)
Definition trigger_tag (id : string) (j : Job) : Prop :=
  tags j = [id] ∨ tags j = [id +:+ "_url_monitor"] ∨
  tags j = [id +:+ "_resource_monitor"].

(** A world in which the CPU is at 85 percent, and one in which the three
    readings sit exactly on the default thresholds. *)
Definition hot : World :=
  mkWorld 0 0 0 exit_0 (Response 200 "") None None
    (Returned (mkReadings 85 20 30)) (fun _ => 0).

Definition at_threshold : World :=
  mkWorld 0 0 0 exit_0 (Response 200 "") None None
    (Returned (mkReadings 80 80 90)) (fun _ => 0).

(** The polls of one URL monitor, one after the other, each in its own
    world. *)
Fixpoint polls (t : ref) (url : string) (ws : list World) (s : Scheduler) : Scheduler :=
  match ws with
  | [] => s
  | w :: rest => polls t url rest (check_url t url w s)
  end.

(** The hash a poll sees: none when the request fails. *)
Definition fetched_hash (w : World) : option Z :=
  match http_get w with
  | Response _ text => Some (py_hash w text)
  | RequestError _ => None
  end.

(** The number of times the content changes along a sequence of polls,
    counted between consecutive polls that got a response, starting from
    the hash [stored]. *)
Fixpoint count_changes (stored : option Z) (hs : list (option Z)) : nat :=
  match hs with
  | [] => 0
  | None :: rest => count_changes stored rest
  | Some h :: rest =>
      match stored with
      | Some h0 => if bool_decide (h ≠ h0) then S (count_changes (Some h) rest)
                   else count_changes (Some h) rest
      | None => count_changes (Some h) rest
      end
  end.

(** The hash of the last poll that got a response, [stored] if none did. *)
Fixpoint last_hash (stored : option Z) (hs : list (option Z)) : option Z :=
  match hs with
  | [] => stored
  | None :: rest => last_hash stored rest
  | Some h :: rest => last_hash (Some h) rest
  end.

(** ** Stopping, persistence and the history queries *)


(** The value found under [last_run] or [next_run] in a dictionary: the
    ISO text of an instant, a string that is not an ISO timestamp, or a
    JSON value that is not a string ([truthy] tells how an [if] takes
    it). *)
Inductive TimeValue : Type :=
| IsoText (z : Z)
| OtherText (s : string)
| NotText (truthy : bool).

(** The dictionary of one task in [tasks.json]: each key is absent
    ([None]) or carries a value; for [last_run] and [next_run], [None]
    also stands for the JSON null that [to_dict] writes.  The keys other
    than the two timestamps carry values of their type. *)
Record TaskDict : Type := mkTaskDict {
  d_task_id : option string;
  d_name : option string;
  d_command : option string;
  d_schedule_expr : option string;
  d_enabled : option bool;
  d_max_retries : option Z;
  d_timeout : option Z;
  d_dependencies : option (list string);
  d_notify_on_success : option bool;
  d_notify_on_failure : option bool;
  d_last_run : option TimeValue;
  d_next_run : option TimeValue
}.

(** [Task.to_dict] *)
Definition to_dict (t : Task) : TaskDict :=
  mkTaskDict (Some (task_id t)) (Some (name t)) (Some (command t))
    (Some (schedule_expr t)) (Some (enabled t)) (Some (max_retries t))
    (Some (timeout t)) (Some (dependencies t)) (Some (notify_on_success t))
    (Some (notify_on_failure t)) (IsoText <$> last_run t) (IsoText <$> next_run t).

(** [data[key]]: a [KeyError] when the key is missing. *)
Definition required {A : Type} (key : string) (v : option A) : Outcome A :=
  match v with
  | Some x => Returned x
  | None => Raised ("'" +:+ key +:+ "'")
  end.

(** [if data.get(key): ... = datetime.fromisoformat(data[key])]: nothing
    is read from a missing, null, empty or otherwise false value, and
    [fromisoformat] raises a [ValueError] on a string that is not an ISO
    timestamp and a [TypeError] on a value that is not a string. *)
Definition parse_time (v : option TimeValue) : Outcome (option Z) :=
  match v with
  | None => Returned None
  | Some (IsoText z) => Returned (Some z)
  | Some (OtherText txt) =>
      if bool_decide (txt = "") then Returned None
      else Raised ("Invalid isoformat string: '" +:+ txt +:+ "'")
  | Some (NotText truthy) =>
      if truthy then Raised "fromisoformat: argument must be str"
      else Returned None
  end.

(** [Task.from_dict]: the four required keys are read in the order of the
    call, the others have defaults; then [last_run] and [next_run] are
    parsed, in this order. *)
Definition from_dict (data : TaskDict) : Outcome Task :=
  match required "task_id" (d_task_id data) with
  | Raised e => Raised e
  | Returned id =>
  match required "name" (d_name data) with
  | Raised e => Raised e
  | Returned nm =>
  match required "command" (d_command data) with
  | Raised e => Raised e
  | Returned cmd =>
  match required "schedule_expr" (d_schedule_expr data) with
  | Raised e => Raised e
  | Returned expr =>
      let task :=
        new_task id nm cmd expr
          (default true (d_enabled data))
          (default 0 (d_max_retries data))
          (default 300 (d_timeout data))
          (default [] (d_dependencies data))
          (default false (d_notify_on_success data))
          (default true (d_notify_on_failure data)) in
      match parse_time (d_last_run data) with
      | Raised e => Raised e
      | Returned lr =>
      match parse_time (d_next_run data) with
      | Raised e => Raised e
      | Returned nr =>
          Returned
            (mkTask (task_id task) (name task) (command task) (schedule_expr task)
               (enabled task) (max_retries task) (timeout task) (dependencies task)
               (notify_on_success task) (notify_on_failure task)
               lr nr (retry_count task) (is_running task) (_last_url_hash task))
      end end
  end end end end.

(** A value under [last_run] or [next_run] that [fromisoformat] is called
    on and rejects. *)
Definition unreadable_time (v : option TimeValue) : Prop :=
  (∃ txt, v = Some (OtherText txt) ∧ txt ≠ "") ∨ v = Some (NotText true).

(** The [for] loop of [_load_tasks]: each entry becomes a new Task object,
    is registered under its id and scheduled; the first entry that raises
    ends the loop. *)
Fixpoint load_loop (tasks_data : list TaskDict) (s : Scheduler) : Outcome Scheduler :=
  match tasks_data with
  | [] => Returned s
  | task_data :: rest =>
      match from_dict task_data with
      | Raised e => Raised e
      | Returned task =>
          let t := length (heap s) in
          let s := set_heap (fun h => h ++ [task]) s in
          let s := set_tasks (fun m => <[task_id task := t]> m) s in
          load_loop rest (_schedule_task t task s)
      end
  end.

(** The state in which the loop of [_load_tasks] stopped: the [except]
    clause keeps what was loaded before the exception. *)
Fixpoint loaded_before_error (tasks_data : list TaskDict) (s : Scheduler) : Scheduler :=
  match tasks_data with
  | [] => s
  | task_data :: rest =>
      match from_dict task_data with
      | Raised _ => s
      | Returned task =>
          let t := length (heap s) in
          let s := set_heap (fun h => h ++ [task]) s in
          let s := set_tasks (fun m => <[task_id task := t]> m) s in
          loaded_before_error rest (_schedule_task t task s)
      end
  end.

(** [_load_tasks]; [file] is [None] when [tasks.json] does not exist, a
    raise when it cannot be read as JSON, and the list of dictionaries
    otherwise. *)
Definition _load_tasks (file : option (Outcome (list TaskDict))) (s : Scheduler)
    : Scheduler :=
  match file with
  | None => s
  | Some (Raised e) => logger ERROR ("Error loading tasks: " +:+ e) s
  | Some (Returned tasks_data) =>
      match load_loop tasks_data s with
      | Returned s' =>
          logger INFO ("Loaded " +:+ pretty (size (tasks s')) +:+ " tasks") s'
      | Raised e =>
          logger ERROR ("Error loading tasks: " +:+ e)
            (loaded_before_error tasks_data s)
      end
  end.



(** [ORDER BY start_time DESC]: the later start comes first. *)
Definition newer_first (a b : TaskResult) : Prop := start_time b <= start_time a.

#[global] Instance newer_first_dec : RelDecision newer_first.
Proof. intros a b. unfold newer_first. apply _. Defined.




(** Whether a result of status [st] leads to a mail for [task]: the flag
    for that status is set, both credentials are present and the SMTP
    server takes the message. *)
Definition notifies (task : Task) (st : TaskStatus) (cfg : Config) (w : World) : bool :=
  ((bool_decide (st = COMPLETED) && notify_on_success task) ||
   (bool_decide (st = FAILED) && notify_on_failure task)) &&
  negb (bool_decide (email_username cfg = "")) &&
  negb (bool_decide (email_password cfg = "")) &&
  bool_decide (smtp_error w = None).

(** T1 in a scheduler that has mail credentials. *)
Definition with_T1_mail : Scheduler := (add_task T1 (new_scheduler mail_config)).2.







(** * Properties *)

(** ** The string helpers on the expressions of the usage notes *)

Example lower_ex : PyStr.lower "Every 5 Minutes" = "every 5 minutes".
Proof. reflexivity. Qed.

Example strip_ex : PyStr.strip "  at 09:00 " = "at 09:00".
Proof. reflexivity. Qed.

Example split_ex : PyStr.split "every day at 09:00" "at" = ["every day "; " 09:00"].
Proof. reflexivity. Qed.

Example replace_ex :
  PyStr.replace "on_url_change: http://x" "on_url_change:" "" = " http://x".
Proof. reflexivity. Qed.

Example int_ex : PyStr.isdigit "15" = true /\ PyStr.int "15" = 15.
Proof. split; reflexivity. Qed.

Example at_time_ok_ex :
  at_time_ok Days None "09:00" = true /\ at_time_ok Hours None ":30" = true /\
  at_time_ok Days None "9am" = false.
Proof. repeat split; reflexivity. Qed.

(** "every monday at 08:00" contains "day": the expression takes the daily
    branch of [_parse_every_expression]. *)
Example every_monday_is_daily :
  jobs (_schedule_task 0 (new_task "m" "m" "true" "every monday at 08:00" true 0 300
                            [] false true) (new_scheduler default_config))
  = [mkJob 1 Days None (Some "08:00") (WrapperJob 0) ["m"]].
Proof. reflexivity. Qed.

(** ** The store of Task objects *)

Lemma lookup_update_task (t : ref) (f : Task -> Task) (s : Scheduler) :
  heap (update_task t f s) !! t = f <$> heap s !! t.
Proof.
  unfold update_task; cbn.
  destruct (heap s !! t) as [task|] eqn:E; cbn.
  - apply list_lookup_insert_eq. eapply lookup_lt_Some; eauto.
  - exact E.
Qed.

Lemma lookup_update_task_ne (t t' : ref) (f : Task -> Task) (s : Scheduler) :
  t ≠ t' -> heap (update_task t f s) !! t' = heap s !! t'.
Proof.
  intros Hne. unfold update_task; cbn.
  destruct (heap s !! t); [|reflexivity].
  now apply list_lookup_insert_ne.
Qed.

Lemma logged_nil (s : Scheduler) : logged [] s s.
Proof. unfold logged, set_log. destruct s; cbn. now rewrite app_nil_r. Qed.

Lemma logged_logger (lvl : LogLevel) (msg : string) (s : Scheduler) :
  logged [(lvl, msg)] s (logger lvl msg s).
Proof. reflexivity. Qed.


(** ** Dependency gate *)



(** When every prerequisite is registered and ran within the window, the
    gate opens and leaves the scheduler as it was. *)
Lemma check_dependencies_loop_met (deps : list string) (id : string) (now : Z)
    (s : Scheduler) :
  (∀ dep_id, dep_id ∈ deps ->
     ∃ d dep_task lr, tasks s !! dep_id = Some d ∧ heap s !! d = Some dep_task ∧
       last_run dep_task = Some lr ∧ now - lr <= freshness_window) ->
  check_dependencies_loop deps id now s = (true, s).
Proof.
  induction deps as [|x rest IH]; intros Hall; [reflexivity|].
  destruct (Hall x) as (d & dt & lr & Hd & Hh & Hl & Hle); [left|].
  cbn. rewrite Hd, Hh, Hl.
  destruct (now - lr >? freshness_window) eqn:Eo.
  - rewrite Z.gtb_ltb in Eo. apply Z.ltb_lt in Eo. lia.
  - apply IH. intros y Hy. apply Hall. now right.
Qed.




(** ** Force-run *)

Lemma enter_spec (t : ref) (task : Task) (now : Z) (s : Scheduler) :
  heap s !! t = Some task ->
  let s' := enter t now s in
  executing s' =
    executing s ++ [(t, mkTaskResult (task_id task) RUNNING now None "" None 0)] ∧
  heap s' !! t = Some (set_is_running true task) ∧
  threads s' = threads s ∧ timers s' = timers s ∧ history s' = history s ∧
  tasks s' = tasks s.
Proof.
  intros Hh. unfold enter, begin_execution. rewrite Hh. cbn.
  repeat split.
  change (heap (update_task t (set_is_running true) s) !! t
          = Some (set_is_running true task)).
  now rewrite lookup_update_task, Hh.
Qed.

(** C10. For every id in the registry, whatever the task's [enabled] flag,
    its prerequisites and its [is_running] flag, [run_task_immediately]
    returns True and starts one thread; that thread enters
    [_execute_task] and puts the task in the running state without
    consulting the flag or the gate.  Only an id that is absent makes the
    call return False, and then nothing but an error is logged. *)
Theorem run_task_immediately_unguarded (s : Scheduler) (id : string) (now : Z) :
  ((run_task_immediately id s).1 = true ↔ is_Some (tasks s !! id)) ∧
  (tasks s !! id = None ->
     (run_task_immediately id s).1 = false ∧
     ∃ l, logged l s (run_task_immediately id s).2) ∧
  (∀ t task, tasks s !! id = Some t -> heap s !! t = Some task ->
     let s1 := (run_task_immediately id s).2 in
     (run_task_immediately id s).1 = true ∧
     threads s1 = threads s ++ [t] ∧ log s1 = log s ∧
     let s2 := do_event (ThreadEnters (length (threads s)) now) s1 in
     threads s2 = threads s ∧
     executing s2 =
       executing s ++ [(t, mkTaskResult (task_id task) RUNNING now None "" None 0)] ∧
     (is_running <$> heap s2 !! t) = Some true).
Proof.
  unfold run_task_immediately. split; [|split].
  - destruct (tasks s !! id); cbn; split; intros H;
      first [done | now destruct H | now eexists].
  - intros ->. cbn. split; [reflexivity|]. eexists. apply logged_logger.
  - intros t task Ht Hh. rewrite Ht. cbn. repeat split.
    all: rewrite list_lookup_middle by reflexivity.
    all: pose proof (enter_spec t task now
           (set_threads (delete (length (threads s)))
              (set_threads (fun l => l ++ [t]) s)) Hh) as (He & Hr & Hth & _).
    + rewrite Hth. cbn.
      rewrite (delete_middle (threads s) [] t). apply app_nil_r.
    + exact He.
    + now rewrite Hr.
Qed.

Lemma run_task_immediately_unguarded_witness :
  enabled dormant = false ∧
  (_check_dependencies dormant 0 with_dormant).1 = false ∧
  jobs with_dormant = [] ∧
  (run_task_immediately "D" with_dormant).1 = true ∧
  executing (do_event (ThreadEnters 0 5)
               (run_task_immediately "D" with_dormant).2)
  = [(0%nat, mkTaskResult "D" RUNNING 5 None "" None 0)].
Proof.
  split; [reflexivity|]. split; [reflexivity|]. split; [reflexivity|].
  destruct (run_task_immediately_unguarded with_dormant "D" 5) as (_ & _ & H).
  destruct (H 0%nat dormant eq_refl eq_refl) as (Hok & _ & _ & _ & He & _).
  split; [exact Hok | exact He].
Defined.

(** ** URL-change trigger *)

(** C9. For a registered task with a URL-change trigger: a poll made
    while no hash is stored never starts an execution, and stores the
    hash of the fetched content as the baseline; a later poll whose
    content hash equals the stored one changes nothing; a later poll
    whose content hash differs starts exactly one execution thread for the
    task and stores the new hash. *)
Theorem check_url_fires_on_change (s : Scheduler) (t : ref) (task : Task)
    (url : string) (w : World) :
  heap s !! t = Some task ->
  tasks s !! task_id task = Some t ->
  let s' := check_url t url w s in
  (_last_url_hash task = None ->
     threads s' = threads s ∧ executing s' = executing s ∧ timers s' = timers s ∧
     history s' = history s ∧
     ∀ code text, http_get w = Response code text ->
       (_last_url_hash <$> heap s' !! t) = Some (Some (py_hash w text))) ∧
  (∀ code text h0, http_get w = Response code text ->
     _last_url_hash task = Some h0 -> py_hash w text = h0 -> s' = s) ∧
  (∀ code text h0, http_get w = Response code text ->
     _last_url_hash task = Some h0 -> py_hash w text ≠ h0 ->
     threads s' = threads s ++ [t] ∧
     (_last_url_hash <$> heap s' !! t) = Some (Some (py_hash w text)) ∧
     executing s' = executing s ∧ history s' = history s).
Proof.
  intros Hh Hreg s'. subst s'. unfold check_url. rewrite Hh.
  split; [|split].
  - intros Hnone. rewrite Hnone.
    destruct (http_get w) as [code text|e]; cbn; repeat split; try discriminate.
    intros code' text' [= _ <-]. rewrite Hh.
    rewrite list_lookup_insert_eq by (eapply lookup_lt_Some; eauto). reflexivity.
  - intros code text h0 -> -> Heq.
    rewrite bool_decide_eq_false_2; [reflexivity|]. intros Hne. now apply Hne.
  - intros code text h0 -> -> Hne.
    rewrite bool_decide_eq_true_2 by exact Hne.
    unfold run_task_immediately. cbn [tasks update_task set_heap].
    rewrite Hreg. cbn. repeat split. rewrite Hh.
    rewrite list_lookup_insert_eq by (eapply lookup_lt_Some; eauto). reflexivity.
Qed.

Lemma check_url_fires_on_change_witness :
  let url := "http://example.com/status" in
  let s1 := check_url 0 url (page "v1") with_U in
  let s2 := check_url 0 url (page "v1") s1 in
  let s3 := check_url 0 url (page "v22") s2 in
  jobs with_U = [mkJob 5 Minutes None None (CheckUrl 0 url) ["U_url_monitor"]] ∧
  threads s1 = [] ∧ (_last_url_hash <$> heap s1 !! 0%nat) = Some (Some 2) ∧
  s2 = s1 ∧
  threads s3 = [0%nat] ∧ (_last_url_hash <$> heap s3 !! 0%nat) = Some (Some 3).
Proof.
  intros url s1 s2 s3.
  destruct (check_url_fires_on_change with_U 0 U url (page "v1") eq_refl eq_refl)
    as (H1 & _ & _).
  destruct (H1 eq_refl) as (Ht1 & _ & _ & _ & Hs1).
  destruct (check_url_fires_on_change s1 0 (set_last_url_hash (Some 2) U) url
              (page "v1") eq_refl eq_refl) as (_ & H2 & _).
  pose proof (H2 200 "v1" 2 eq_refl eq_refl eq_refl) as E2.
  destruct (check_url_fires_on_change s1 0 (set_last_url_hash (Some 2) U) url
              (page "v22") eq_refl eq_refl) as (_ & _ & H3).
  destruct (H3 200 "v22" 2 eq_refl eq_refl ltac:(discriminate)) as (Ht3 & Hs3 & _).
  split; [reflexivity|]. split; [exact Ht1|]. split; [exact (Hs1 200 "v1" eq_refl)|].
  split; [exact E2|]. subst s3 s2. rewrite E2. split; [exact Ht3 | exact Hs3].
Defined.

(** ** Executor: the result row *)

Lemma history_handle_retries (t : ref) (r : TaskResult) (s : Scheduler) :
  history (handle_retries t r s) = history s.
Proof.
  unfold handle_retries. destruct (heap s !! t) as [task|]; [|reflexivity].
  now destruct (bool_decide (status r = FAILED) && (retry_count task <? max_retries task)).
Qed.

Lemma history_send_notifications (task : Task) (r : TaskResult) (w : World)
    (s : Scheduler) :
  history (_send_notifications task r w s) = history s.
Proof.
  unfold _send_notifications.
  repeat match goal with
         | |- context [if ?b then _ else _] => destruct b
         | |- context [match smtp_error w with _ => _ end] => destruct (smtp_error w)
         end; reflexivity.
Qed.

Lemma history_save_task_result (r : TaskResult) (w : World) (s : Scheduler) :
  history (_save_task_result r w s) =
  match db_error w with None => history s ++ [r] | Some _ => history s end.
Proof. unfold _save_task_result. now destruct (db_error w). Qed.

(** What the branch on the command can do to the result and the scheduler:
    the status stays or becomes completed or failed, identity and
    timestamps stay, and only the log grows. *)
Lemma run_action_returned (task : Task) (r r' : TaskResult) (w : World)
    (s s' : Scheduler) :
  run_action task r w s = Returned (r', s') ->
  result_task_id r' = result_task_id r ∧ start_time r' = start_time r ∧
  end_time r' = end_time r ∧
  (status r' = status r ∨ status r' = COMPLETED ∨ status r' = FAILED) ∧
  ∃ l, logged l s s'.
Proof.
  unfold run_action.
  destruct (PyStr.startswith (command task) "python:").
  { intros [= <- <-]. repeat split; auto. exists []. apply logged_nil. }
  destruct (PyStr.startswith (command task) "http:" ||
            PyStr.startswith (command task) "https:").
  { destruct (_execute_http_request (command task) w); [|discriminate].
    intros [= <- <-]. repeat split; auto. exists []. apply logged_nil. }
  destruct (popen w) as [rc out err| |msg]; [| |discriminate].
  - destruct (rc =? 0); intros [= <- <-]; cbn; repeat split; auto;
      eexists; apply logged_logger.
  - intros [= <- <-]; cbn; repeat split; auto. eexists; apply logged_logger.
Qed.





(** ** Executor: [last_run], [retry_count] and the retry timer *)

Lemma save_task_result_frame (r : TaskResult) (w : World) (s : Scheduler) :
  heap (_save_task_result r w s) = heap s ∧
  timers (_save_task_result r w s) = timers s.
Proof. unfold _save_task_result. now destruct (db_error w). Qed.

Lemma send_notifications_frame (task : Task) (r : TaskResult) (w : World)
    (s : Scheduler) :
  heap (_send_notifications task r w s) = heap s ∧
  timers (_send_notifications task r w s) = timers s.
Proof.
  unfold _send_notifications.
  repeat match goal with
         | |- context [if ?b then _ else _] => destruct b
         | |- context [match smtp_error w with _ => _ end] => destruct (smtp_error w)
         end; split; reflexivity.
Qed.

Arguments update_task : simpl never.

(** Reads a Task object through the assignments made since. *)
Ltac heap_frames :=
  repeat first
    [ progress change (heap (logger ?a ?b ?c)) with (heap c)
    | progress change (heap (set_timers ?f ?c)) with (heap c)
    | rewrite lookup_update_task
    | rewrite (proj1 (send_notifications_frame _ _ _ _))
    | rewrite (proj1 (save_task_result_frame _ _ _)) ].

(** A shell command that exits non-zero leaves the [try] block without an
    exception, so the two assignments after the branch run: whatever
    [retry_count] was, it is set to 0 and [last_run] to the start time
    before the [finally] block looks at the retries.  With a positive
    [max_retries] the block therefore always starts another timer. *)
Lemma shell_failure_rearms (s : Scheduler) (t : ref) (task : Task) (w : World)
    (rc : Z) (out err : string) :
  heap s !! t = Some task ->
  PyStr.startswith (command task) "python:" = false ->
  PyStr.startswith (command task) "http:" = false ->
  PyStr.startswith (command task) "https:" = false ->
  popen w = Exited rc out err -> rc ≠ 0 ->
  0 < max_retries task ->
  let s' := _execute_task t w s in
  timers s' = timers s ++ [(60, t)] ∧
  (retry_count <$> heap s' !! t) = Some 1 ∧
  (last_run <$> heap s' !! t) = Some (Some (clock_start w)).
Proof.
  intros Hh Hpy Hhttp Hhttps Hp Hrc Hmax s'. subst s'.
  unfold _execute_task, begin_execution. rewrite Hh.
  unfold finish_execution.
  assert (heap (logger INFO
                  ("Executing task: " +:+ name task +:+ " (" +:+ task_id task +:+ ")")
                  (update_task t (set_is_running true) s)) !! t
          = Some (set_is_running true task)) as ->.
  { change (heap (update_task t (set_is_running true) s) !! t
            = Some (set_is_running true task)).
    now rewrite lookup_update_task, Hh. }
  unfold run_action. cbn [command set_is_running].
  rewrite Hpy, Hhttp, Hhttps, Hp. cbn [orb].
  destruct (rc =? 0) eqn:E; [apply Z.eqb_eq in E; contradiction|].
  unfold handle_retries.
  set (r := with_end _ _). set (tk := set_is_running true task).
  match goal with
  | |- context [heap ?x !! t] =>
      assert (heap x !! t
              = Some (set_is_running false
                        (set_retry_count 0 (set_last_run (Some (clock_start w)) tk))))
        as ->
  end.
  { heap_frames. now rewrite Hh. }
  cbn [status r with_end with_outcome retry_count max_retries set_is_running
       set_retry_count set_last_run tk].
  rewrite bool_decide_eq_true_2 by reflexivity.
  assert ((0 <? max_retries task) = true) as -> by now apply Z.ltb_lt.
  cbn [andb]. split; [|split].
  - cbn [timers set_timers logger set_log].
    change (timers (update_task ?a ?b ?c)) with (timers c).
    rewrite (proj2 (send_notifications_frame _ _ _ _)),
      (proj2 (save_task_result_frame _ _ _)). reflexivity.
  - heap_frames. now rewrite Hh.
  - heap_frames. now rewrite Hh.
Qed.

(** C1 fails on the code. T1 runs a shell command that always exits
    non-zero and has [max_retries = 1].  The first failure starts the one
    retry the claim allows.  When that retry fails too, the failure streak
    has reached [max_retries], and yet the failed run has set
    [retry_count] back to 0 before the check: a further timer is started,
    a third attempt runs, and so on. *)
Theorem retry_cap_not_enforced :
  let w := world 0 0 second exit_1 in
  let retry := [TimerFires 0 (60 * second); ActionEnds 0 w] in
  let s1 := run_events [WrapperFires 0 w; ActionEnds 0 w] with_T1 in
  let s2 := run_events retry s1 in
  let s3 := run_events retry s2 in
  max_retries T1 = 1 ∧
  (outcomes s1 = [("T1", FAILED)] ∧ timers s1 = [(60, 0%nat)] ∧
   (retry_count <$> heap s1 !! 0%nat) = Some 1) ∧
  (outcomes s2 = [("T1", FAILED); ("T1", FAILED)] ∧ timers s2 = [(60, 0%nat)] ∧
   (retry_count <$> heap s2 !! 0%nat) = Some 1) ∧
  (outcomes s3 = [("T1", FAILED); ("T1", FAILED); ("T1", FAILED)] ∧
   timers s3 = [(60, 0%nat)]).
Proof. vm_compute. repeat split. Qed.

(** C4 fails on the code. T1 runs and fails; its [last_run] is set all
    the same, so one second later the gate of T2, which depends on T1,
    opens and T2 is executed. *)
Theorem failed_prerequisite_opens_gate :
  let s1 := _execute_task_wrapper 0 (world 0 (10 * second) (11 * second) exit_1)
              with_T1_T2 in
  let now := 12 * second in
  let s2 := _execute_task_wrapper 1 (world now now (13 * second) exit_0) s1 in
  dependencies T2 = ["T1"] ∧
  outcomes s1 = [("T1", FAILED)] ∧
  (last_run <$> heap s1 !! 0%nat) = Some (Some (10 * second)) ∧
  (_check_dependencies T2 now s1).1 = true ∧
  outcomes s2 = [("T1", FAILED); ("T2", COMPLETED)].
Proof. vm_compute. repeat split. Qed.

(** ** The is-running guard *)

(** The guard as [_execute_task_wrapper] applies it: a fire for a task
    that is running is dropped with a warning. *)
Lemma wrapper_drops_when_running (s : Scheduler) (t : ref) (task : Task) (w : World) :
  heap s !! t = Some task -> is_running task = true ->
  _execute_task_wrapper t w s =
  logger WARNING ("Task " +:+ task_id task +:+ " is already running, skipping") s.
Proof.
  intros Hh Hr. unfold _execute_task_wrapper, wrapper_guards. now rewrite Hh, Hr.
Qed.

(** C2 fails on the code. Two force-runs of T1 in a row start two
    threads, and both enter [_execute_task]: two executions of T1 are in
    the running state and no warning was logged.  The retry timer does the
    same: it fires while a force-run of T1 is running and starts a second
    execution. *)
Theorem running_guard_bypassed :
  let s1 := run_events [CallRunNow "T1"; CallRunNow "T1";
                        ThreadEnters 0 0; ThreadEnters 0 1] with_T1 in
  let w := world 0 0 second exit_1 in
  let s2 := run_events [WrapperFires 0 w; ActionEnds 0 w; CallRunNow "T1";
                        ThreadEnters 0 (2 * second); TimerFires 0 (61 * second)]
              with_T1 in
  (running_executions 0 s1 = 2%nat ∧ warnings s1 = []) ∧
  (running_executions 0 s2 = 2%nat ∧ warnings s2 = []).
Proof. vm_compute. repeat split. Qed.

(** ** The polling thread *)

(** An exception inside [check_resources] leaves the job, [run_pending]
    and the loop of [run_scheduler]. *)
Lemma check_resources_raises (t : ref) (w : World) (s : Scheduler) (e : string) :
  psutil w = Raised e -> check_resources t w s = Raised e.
Proof. intros H. unfold check_resources. now rewrite H. Qed.

(** C5 fails on the code. With the resource monitor of R installed, the
    loop keeps iterating while [psutil] answers; an iteration in which
    [psutil] raises ends the polling thread, and the iterations after it
    never run.  A configuration whose threshold is a string ends it at the
    first poll, by the [TypeError] of the comparison. *)
Theorem polling_thread_dies :
  let always := fun _ : Job => true in
  let fine := (always, fun _ : Job => world 0 0 0 exit_0) in
  let down := (always, fun _ : Job => psutil_down) in
  jobs (with_R default_config)
  = [mkJob 1 Minutes None None (CheckResources 0) ["R_resource_monitor"]] ∧
  (run_scheduler [fine; fine; fine] (with_R default_config)).1 = Looping ∧
  (run_scheduler [fine; down; fine] (with_R default_config)).1
  = Died "[Errno 13] Permission denied: '/'" ∧
  (run_scheduler [fine] (with_R string_threshold)).1
  = Died "'>' not supported between instances of 'float' and 'str'".
Proof. vm_compute. repeat split. Qed.

(** ** Triggers on registration and removal *)

Lemma every_do_jobs (n : Z) (u : TimeUnit) (day : option Weekday)
    (ts : option string) (f : JobFunc) (tag : string) (s s' : Scheduler) :
  every_do n u day ts f tag s = Returned s' ->
  jobs s' = jobs s ++ [mkJob n u day ts f [tag]].
Proof.
  unfold every_do. destruct ts as [str|].
  - destruct (at_time_ok u day str); [|discriminate]. now intros [= <-].
  - now intros [= <-].
Qed.

(** Installing a trigger never takes a job away: the job list afterwards
    is the one before, followed by what was installed. *)
Lemma schedule_task_appends (t : ref) (task : Task) (s : Scheduler) :
  ∃ l, jobs (_schedule_task t task s) = jobs s ++ l.
Proof.
  unfold _schedule_task.
  destruct (negb (enabled task)); [exists []; now rewrite app_nil_r|].
  match goal with
  | |- ∃ l, jobs (match ?a with _ => _ end) = _ => destruct a as [s'|e] eqn:E
  end; [|exists []; cbn; now rewrite app_nil_r].
  revert E.
  unfold _parse_every_expression, _parse_at_expression, _parse_cron_expression,
    _setup_file_watcher, _setup_url_monitor, _setup_resource_monitor.
  repeat match goal with
         | |- context [if ?b then _ else _] => destruct b
         | |- context [match counted ?p with _ => _ end] => destruct (counted p)
         | |- context [match after_at ?p with _ => _ end] => destruct (after_at p)
         | |- context [match PyStr.split ?a ?b with _ => _ end] =>
             destruct (PyStr.split a b) as [|? [|? ?]]
         end;
    intros E;
    try discriminate;
    try (apply every_do_jobs in E; rewrite E; cbn; eauto; fail);
    try (injection E as <-; exists []; cbn; now rewrite app_nil_r).
Qed.

Lemma add_task_appends (task : Task) (s : Scheduler) :
  ∃ l, jobs (add_task task s).2 = jobs s ++ l.
Proof.
  unfold add_task. cbn [snd].
  match goal with
  | |- ∃ l, jobs (logger _ _ (_schedule_task ?t ?k ?x)) = _ =>
      destruct (schedule_task_appends t k x) as [l Hl]; exists l;
      change (jobs (_schedule_task t k x) = jobs s ++ l); rewrite Hl
  end.
  now destruct (tasks s !! task_id task).
Qed.

(** C7 fails on the code. Adding the interval task A a second time is
    reported as a success and makes the second object the registered one,
    but the job of the first registration stays in the job list next to
    the new one: two triggers carry the tag A, the older one bound to the
    replaced Task object.  The same holds for a file watch: both observers
    are alive. *)
Theorem add_task_twice_two_triggers :
  let r1 := add_task A (new_scheduler default_config) in
  let r2 := add_task A r1.2 in
  let f2 := (add_task F (add_task F (new_scheduler default_config)).2).2 in
  r1.1 = true ∧ r2.1 = true ∧
  warnings r2.2 = [(WARNING, "Task A already exists, updating...")] ∧
  tasks r2.2 !! "A" = Some 1%nat ∧
  jobs_tagged "A" r1.2 = [mkJob 5 Minutes None None (WrapperJob 0) ["A"]] ∧
  jobs_tagged "A" r2.2 = [mkJob 5 Minutes None None (WrapperJob 0) ["A"];
                          mkJob 5 Minutes None None (WrapperJob 1) ["A"]] ∧
  observers f2 = [mkObserver "F" "/tmp/inbox" true; mkObserver "F" "/tmp/inbox" true].
Proof. vm_compute. repeat split. Qed.

Lemma append_suffix_ne (id suffix : string) :
  suffix ≠ EmptyString -> id ≠ id +:+ suffix.
Proof.
  intros Hs. induction id as [|a id IH]; cbn.
  - intros E. now apply Hs.
  - intros [= E]. now apply IH.
Qed.

(** [schedule.clear(id)] keeps every job whose only tag is [id] followed
    by a non-empty suffix, as the tags of the two monitors are. *)
Lemma clear_keeps_suffixed (id suffix : string) (j : Job) (l : list Job) :
  suffix ≠ EmptyString -> tags j = [id +:+ suffix] -> In j l -> In j (clear id l).
Proof.
  intros Hs Ht Hin. unfold clear. apply filter_In. split; [exact Hin|].
  unfold has_tag. rewrite Ht. apply negb_true_iff, bool_decide_eq_false.
  intros H. apply list_elem_of_singleton in H. now apply (append_suffix_ne id suffix).
Qed.

(** What [remove_task] does to the job list and to the timers of a
    registered id. *)
Lemma remove_task_jobs (id : string) (t : ref) (s : Scheduler) :
  tasks s !! id = Some t ->
  (remove_task id s).1 = true ∧
  tasks (remove_task id s).2 !! id = None ∧
  jobs (remove_task id s).2 = clear id (jobs s) ∧
  timers (remove_task id s).2 = timers s ∧
  threads (remove_task id s).2 = threads s ∧
  executing (remove_task id s).2 = executing s.
Proof.
  intros Ht. unfold remove_task. rewrite Ht. cbn.
  destruct (file_observers s !! id); cbn; repeat split; apply lookup_delete_eq.
Qed.

(** A monitor job survives the removal of its task, for every id. *)
Lemma remove_task_keeps_monitor (id suffix : string) (t : ref) (j : Job)
    (s : Scheduler) :
  tasks s !! id = Some t -> suffix ≠ EmptyString ->
  tags j = [id +:+ suffix] -> In j (jobs s) ->
  In j (jobs (remove_task id s).2).
Proof.
  intros Ht Hs Htag Hin.
  destruct (remove_task_jobs id t s Ht) as (_ & _ & -> & _).
  now apply (clear_keeps_suffixed id suffix).
Qed.

(** C8 fails on the code. Removing the URL-monitored task U succeeds and
    deletes the record, but its five-minute poll stays in the job list;
    so does the one-minute poll of the resource-monitored task R.
    Removing T1 while its retry timer is pending clears its interval job
    but not the timer: the timer fires after the removal and a new row
    for T1 is written. *)
Theorem remove_task_leaves_triggers :
  let ru := remove_task "U" with_U in
  let rr := remove_task "R" (with_R default_config) in
  let w := world 0 0 second exit_1 in
  let s1 := _execute_task_wrapper 0 w with_T1 in
  let r1 := remove_task "T1" s1 in
  let s2 := run_events [TimerFires 0 (60 * second); ActionEnds 0 w] r1.2 in
  (ru.1 = true ∧ tasks ru.2 !! "U" = None ∧
   jobs ru.2 = [mkJob 5 Minutes None None (CheckUrl 0 "http://example.com/status")
                  ["U_url_monitor"]]) ∧
  (rr.1 = true ∧ tasks rr.2 !! "R" = None ∧
   jobs rr.2 = [mkJob 1 Minutes None None (CheckResources 0) ["R_resource_monitor"]]) ∧
  (r1.1 = true ∧ tasks r1.2 !! "T1" = None ∧ jobs r1.2 = [] ∧
   timers r1.2 = [(60, 0%nat)] ∧
   outcomes r1.2 = [("T1", FAILED)] ∧
   tasks s2 !! "T1" = None ∧
   rows_of "T1" s2 ≠ rows_of "T1" r1.2 ∧
   outcomes s2 = [("T1", FAILED); ("T1", FAILED)]).
Proof. vm_compute. repeat split. discriminate. Qed.

(** ** Retries after a failure that raises

    An HTTP action whose request fails leaves the [try] block by the
    exception, so [retry_count] is not reset: below the cap one timer is
    started and the count goes up by one, at the cap nothing is started
    and the count stays. *)
Lemma raising_failure_respects_cap (s : Scheduler) (t : ref) (task : Task)
    (w : World) (msg : string) :
  heap s !! t = Some task ->
  PyStr.startswith (command task) "python:" = false ->
  PyStr.startswith (command task) "http:" = true ->
  http_get w = RequestError msg ->
  let s' := _execute_task t w s in
  (last_run <$> heap s' !! t) = Some (last_run task) ∧
  if retry_count task <? max_retries task
  then timers s' = timers s ++ [(60, t)] ∧
       (retry_count <$> heap s' !! t) = Some (retry_count task + 1)
  else timers s' = timers s ∧
       (retry_count <$> heap s' !! t) = Some (retry_count task).
Proof.
  intros Hh Hpy Hhttp Hget s'. subst s'.
  unfold _execute_task, begin_execution. rewrite Hh.
  unfold finish_execution.
  assert (heap (logger INFO
                  ("Executing task: " +:+ name task +:+ " (" +:+ task_id task +:+ ")")
                  (update_task t (set_is_running true) s)) !! t
          = Some (set_is_running true task)) as ->.
  { heap_frames. now rewrite Hh. }
  unfold run_action, _execute_http_request. cbn [command set_is_running].
  rewrite Hpy, Hhttp, Hget. cbn [orb].
  unfold handle_retries.
  set (r := with_end _ _). set (tk := set_is_running true task).
  match goal with
  | |- context [match heap ?x !! t with _ => _ end] =>
      assert (heap x !! t = Some (set_is_running false tk)) as ->
  end.
  { heap_frames. now rewrite Hh. }
  cbn [status r with_end with_outcome retry_count max_retries set_is_running tk].
  rewrite bool_decide_eq_true_2 by reflexivity. cbn [andb].
  destruct (retry_count task <? max_retries task).
  - split; [heap_frames; now rewrite Hh|]. split.
    + cbn [timers set_timers logger set_log].
      change (timers (update_task ?a ?b ?c)) with (timers c).
      rewrite (proj2 (send_notifications_frame _ _ _ _)),
        (proj2 (save_task_result_frame _ _ _)). reflexivity.
    + heap_frames. now rewrite Hh.
  - split; [heap_frames; now rewrite Hh|]. split.
    + rewrite (proj2 (send_notifications_frame _ _ _ _)),
        (proj2 (save_task_result_frame _ _ _)). reflexivity.
    + heap_frames. now rewrite Hh.
Qed.

(** * Further properties of the scheduler *)

(** ** The gate, in full *)

Lemma check_dependencies_loop_true (deps : list string) (id : string) (now : Z)
    (s s' : Scheduler) :
  check_dependencies_loop deps id now s = (true, s') ->
  s' = s ∧ ∀ dep_id, dep_id ∈ deps -> prerequisite_met s now dep_id.
Proof.
  induction deps as [|x rest IH]; cbn.
  - intros [= <-]. split; [reflexivity|]. intros d Hd. inversion Hd.
  - destruct (tasks s !! x) as [d|] eqn:Ex; [|discriminate].
    destruct (heap s !! d) as [dep_task|] eqn:Ed; [|discriminate].
    destruct (last_run dep_task) as [lr|] eqn:El; [|discriminate].
    destruct (now - lr >? freshness_window) eqn:Eo; [discriminate|].
    intros H. destruct (IH H) as [-> Hall]. split; [reflexivity|].
    intros dep_id Hin. apply elem_of_cons in Hin as [->|Hin]; [|now apply Hall].
    exists d, dep_task, lr. repeat split; auto.
    rewrite Z.gtb_ltb in Eo. apply Z.ltb_ge in Eo. exact Eo.
Qed.

(** X1. [_check_dependencies] returns True exactly when every id of the
    dependency list is registered and its task has a last run that is at
    most 24 hours old (a last run exactly 24 hours ago still passes); an
    empty list passes.  When it returns True it has changed nothing. *)
Theorem check_dependencies_iff (task : Task) (now : Z) (s : Scheduler) :
  ((_check_dependencies task now s).1 = true ↔
   ∀ dep_id, dep_id ∈ dependencies task -> prerequisite_met s now dep_id) ∧
  ((_check_dependencies task now s).1 = true ->
   (_check_dependencies task now s).2 = s).
Proof.
  unfold _check_dependencies. split; [split|].
  - intros H.
    destruct (check_dependencies_loop (dependencies task) (task_id task) now s)
      as [b s'] eqn:E. cbn in H. subst b.
    now apply check_dependencies_loop_true in E as [_ Hall].
  - intros Hall. now rewrite check_dependencies_loop_met.
  - intros H.
    destruct (check_dependencies_loop (dependencies task) (task_id task) now s)
      as [b s'] eqn:E. cbn in H. subst b.
    now apply check_dependencies_loop_true in E as [-> _].
Qed.

(** ** What an execution touches *)

Lemma same_definition_refl (a : Task) : same_definition a a.
Proof. repeat split. Qed.

Lemma same_definition_trans (a b c : Task) :
  same_definition a b -> same_definition b c -> same_definition a c.
Proof.
  unfold same_definition. intros H1 H2.
  repeat match goal with H : _ ∧ _ |- _ => destruct H end.
  repeat split; congruence.
Qed.

Lemma runtime_step_refl (t : ref) (s : Scheduler) : runtime_step t s s.
Proof.
  repeat split. intros task H. exists task. split; [exact H|apply same_definition_refl].
Qed.

Lemma runtime_step_trans (t : ref) (s1 s2 s3 : Scheduler) :
  runtime_step t s1 s2 -> runtime_step t s2 s3 -> runtime_step t s1 s3.
Proof.
  intros (A1 & A2 & A3 & A4 & A5 & A6 & A7 & A8 & A9 & A10 & A11)
         (B1 & B2 & B3 & B4 & B5 & B6 & B7 & B8 & B9 & B10 & B11).
  repeat split; try congruence.
  - intros t' Hne. now rewrite B10, A10.
  - intros task H. destruct (A11 task H) as (task2 & H2 & D2).
    destruct (B11 task2 H2) as (task3 & H3 & D3).
    exists task3. split; [exact H3|]. eapply same_definition_trans; eauto.
Qed.

(** A step that leaves the store, the registry, the jobs, the observers,
    the configuration and the threads alone. *)
Lemma runtime_step_frame (t : ref) (s s' : Scheduler) :
  heap s' = heap s -> tasks s' = tasks s -> jobs s' = jobs s ->
  file_observers s' = file_observers s -> observers s' = observers s ->
  config s' = config s -> running s' = running s -> threads s' = threads s ->
  executing s' = executing s ->
  runtime_step t s s'.
Proof.
  intros Hh ? ? ? ? ? ? ? ?. repeat split; try assumption.
  - now rewrite Hh.
  - intros; now rewrite Hh.
  - intros task Hk. exists task. rewrite Hh. split; [exact Hk|apply same_definition_refl].
Qed.

Lemma runtime_step_logged (t : ref) (l : list (LogLevel * string)) (s s' : Scheduler) :
  logged l s s' -> runtime_step t s s'.
Proof. intros ->. now apply runtime_step_frame. Qed.

Lemma runtime_step_update_task (t : ref) (f : Task -> Task) (s : Scheduler) :
  (∀ x, same_definition x (f x)) -> runtime_step t s (update_task t f s).
Proof.
  intros Hf. repeat split.
  - unfold update_task. cbn. destruct (heap s !! t); [apply length_insert|reflexivity].
  - intros t' Hne. now apply lookup_update_task_ne.
  - intros task H. exists (f task). split; [|apply Hf].
    now rewrite lookup_update_task, H.
Qed.

Lemma runtime_step_save (t : ref) (r : TaskResult) (w : World) (s : Scheduler) :
  runtime_step t s (_save_task_result r w s).
Proof. unfold _save_task_result. destruct (db_error w); now apply runtime_step_frame. Qed.

Lemma runtime_step_notify (t : ref) (task : Task) (r : TaskResult) (w : World)
    (s : Scheduler) :
  runtime_step t s (_send_notifications task r w s).
Proof.
  unfold _send_notifications.
  repeat match goal with
         | |- context [if ?b then _ else _] => destruct b
         | |- context [match smtp_error w with _ => _ end] => destruct (smtp_error w)
         end; now apply runtime_step_frame.
Qed.

Lemma runtime_step_retries (t : ref) (r : TaskResult) (s : Scheduler) :
  runtime_step t s (handle_retries t r s).
Proof.
  unfold handle_retries. destruct (heap s !! t) as [task|]; [|apply runtime_step_refl].
  destruct (_ && _); [|apply runtime_step_refl].
  eapply runtime_step_trans; [|now apply runtime_step_frame].
  apply runtime_step_update_task. intros x. repeat split.
Qed.

Lemma runtime_step_finish (t : ref) (r : TaskResult) (w : World) (s : Scheduler) :
  runtime_step t s (finish_execution t r w s).
Proof.
  unfold finish_execution. destruct (heap s !! t) as [task|]; [|apply runtime_step_refl].
  destruct (run_action task r w s) as [[r' s']|e] eqn:Ea.
  - apply run_action_returned in Ea as (_ & _ & _ & _ & l & Hl).
    eapply runtime_step_trans; [|apply runtime_step_retries].
    eapply runtime_step_trans; [|apply runtime_step_notify].
    eapply runtime_step_trans; [|apply runtime_step_save].
    eapply runtime_step_trans;
      [|apply runtime_step_update_task; intros x; repeat split].
    eapply runtime_step_trans;
      [|apply runtime_step_update_task; intros x; repeat split].
    eapply runtime_step_logged, Hl.
  - eapply runtime_step_trans; [|apply runtime_step_retries].
    eapply runtime_step_trans; [|apply runtime_step_notify].
    eapply runtime_step_trans; [|apply runtime_step_save].
    eapply runtime_step_trans;
      [|apply runtime_step_update_task; intros x; repeat split].
    eapply runtime_step_logged, logged_logger.
Qed.

Lemma runtime_step_execute (t : ref) (w : World) (s : Scheduler) :
  runtime_step t s (_execute_task t w s).
Proof.
  unfold _execute_task, begin_execution.
  destruct (heap s !! t) as [task|]; [|apply runtime_step_refl].
  eapply runtime_step_trans; [|apply runtime_step_finish].
  eapply runtime_step_trans; [|eapply runtime_step_logged, logged_logger].
  apply runtime_step_update_task. intros x; repeat split.
Qed.

Lemma handle_retries_is_running (t : ref) (r : TaskResult) (s : Scheduler) :
  is_running <$> heap (handle_retries t r s) !! t = is_running <$> heap s !! t.
Proof.
  unfold handle_retries. destruct (heap s !! t) as [task|] eqn:E; [|now rewrite E].
  destruct (_ && _); [|now rewrite E].
  heap_frames. now rewrite E.
Qed.

Lemma finish_execution_not_running (t : ref) (task : Task) (r : TaskResult)
    (w : World) (s : Scheduler) :
  heap s !! t = Some task ->
  is_running <$> heap (finish_execution t r w s) !! t = Some false.
Proof.
  intros Hh. unfold finish_execution. rewrite Hh.
  destruct (run_action task r w s) as [[r' s']|e] eqn:Ea;
    rewrite handle_retries_is_running; heap_frames.
  - apply run_action_returned in Ea as (_ & _ & _ & _ & l & ->).
    change (heap (set_log ?f ?c)) with (heap c). now rewrite Hh.
  - now rewrite Hh.
Qed.

(** X2. An execution of task object [t], whatever its outcome, changes
    at most [last_run], [retry_count] and [is_running] of that object
    (its definition, [next_run] and the stored URL hash, and every other
    Task object, stay as they were), leaves the registry, the jobs, the
    observers, the configuration and the threads alone, and ends with
    [is_running] False. *)
Theorem execute_task_footprint (s : Scheduler) (t : ref) (w : World) :
  runtime_step t s (_execute_task t w s) ∧
  ∀ task, heap s !! t = Some task ->
    is_running <$> heap (_execute_task t w s) !! t = Some false.
Proof.
  split; [apply runtime_step_execute|].
  intros task Hh. unfold _execute_task, begin_execution. rewrite Hh.
  eapply finish_execution_not_running.
  change (heap (logger ?a ?b ?c)) with (heap c).
  now rewrite lookup_update_task, Hh.
Qed.

(** ** The recorded row, by kind of action *)

Lemma begin_lookup (t : ref) (task : Task) (s : Scheduler) (msg : string) :
  heap s !! t = Some task ->
  heap (logger INFO msg (update_task t (set_is_running true) s)) !! t
  = Some (set_is_running true task).
Proof.
  intros Hh. change (heap (logger ?a ?b ?c)) with (heap c).
  now rewrite lookup_update_task, Hh.
Qed.

Lemma outbox_handle_retries (t : ref) (r : TaskResult) (s : Scheduler) :
  outbox (handle_retries t r s) = outbox s.
Proof.
  unfold handle_retries. destruct (heap s !! t) as [task|]; [|reflexivity].
  now destruct (_ && _).
Qed.

Lemma handle_retries_not_failed (t : ref) (r : TaskResult) (s : Scheduler) :
  status r ≠ FAILED -> handle_retries t r s = s.
Proof.
  intros Hs. unfold handle_retries. destruct (heap s !! t) as [task|]; [|reflexivity].
  now rewrite bool_decide_eq_false_2.
Qed.

Lemma send_notifications_running (task : Task) (r : TaskResult) (w : World)
    (s : Scheduler) :
  status r = RUNNING -> _send_notifications task r w s = s.
Proof. intros Hs. unfold _send_notifications. now rewrite Hs. Qed.

(** X3. For a shell command (no [python:], [http:] or [https:] prefix)
    and a database that takes the INSERT, the row written by an execution
    is: completed with the captured stdout on exit code 0; failed with
    the captured stderr on any other exit code; failed with "Task timed
    out after N seconds" on a timeout; failed with the exception's text
    when the process cannot be started.  Start and end are the two clock
    readings and the duration is their difference. *)
Theorem shell_outcome_row (s : Scheduler) (t : ref) (task : Task) (w : World) :
  heap s !! t = Some task ->
  PyStr.startswith (command task) "python:" = false ->
  PyStr.startswith (command task) "http:" = false ->
  PyStr.startswith (command task) "https:" = false ->
  db_error w = None ->
  let row st out err :=
    mkTaskResult (task_id task) st (clock_start w) (Some (clock_end w)) out err
      (clock_end w - clock_start w) in
  history (_execute_task t w s) =
  history s ++
  [match popen w with
   | Exited rc out err =>
       if rc =? 0 then row COMPLETED out None else row FAILED "" (Some err)
   | TimedOut =>
       row FAILED ""
         (Some ("Task timed out after " +:+ pretty (timeout task) +:+ " seconds"))
   | PopenError msg => row FAILED "" (Some msg)
   end].
Proof.
  intros Hh Hpy Hhttp Hhttps Hdb row.
  unfold _execute_task, begin_execution. rewrite Hh.
  unfold finish_execution. rewrite (begin_lookup t task s _ Hh).
  unfold run_action. cbn [command set_is_running].
  rewrite Hpy, Hhttp, Hhttps. cbn [orb].
  destruct (popen w) as [rc out err| |msg]; [destruct (rc =? 0)| |];
    rewrite history_handle_retries, history_send_notifications,
      history_save_task_result, Hdb; reflexivity.
Qed.

Lemma shell_outcome_row_witness :
  history (_execute_task 0 (world 0 (10 * second) (12 * second) TimedOut) with_T1)
  = [mkTaskResult "T1" FAILED (10 * second) (Some (12 * second)) ""
       (Some "Task timed out after 300 seconds") (2 * second)].
Proof.
  exact (shell_outcome_row with_T1 0 T1 (world 0 (10 * second) (12 * second) TimedOut)
           eq_refl eq_refl eq_refl eq_refl eq_refl).
Defined.

(** X4. A [python:] action, and an [http:]/[https:] action whose request
    gets a response (of any status code), never set a status or an
    output: the row that is written still has status running and an
    empty output, no notification is sent even when the task asks for
    one on success, and no retry is started.  The run counts as one that
    went through: [last_run] is the start time and [retry_count] is 0. *)
Theorem in_process_action_stays_running (s : Scheduler) (t : ref) (task : Task)
    (w : World) :
  heap s !! t = Some task ->
  (PyStr.startswith (command task) "python:" = true ∨
   (PyStr.startswith (command task) "python:" = false ∧
    PyStr.startswith (command task) "http:" ||
    PyStr.startswith (command task) "https:" = true ∧
    ∃ code text, http_get w = Response code text)) ->
  db_error w = None ->
  let s' := _execute_task t w s in
  history s' =
    history s ++ [mkTaskResult (task_id task) RUNNING (clock_start w)
                    (Some (clock_end w)) "" None (clock_end w - clock_start w)] ∧
  outbox s' = outbox s ∧ timers s' = timers s ∧
  (retry_count <$> heap s' !! t) = Some 0 ∧
  (last_run <$> heap s' !! t) = Some (Some (clock_start w)).
Proof.
  intros Hh Hkind Hdb s'. subst s'.
  unfold _execute_task, begin_execution. rewrite Hh.
  unfold finish_execution. rewrite (begin_lookup t task s _ Hh).
  assert (run_action (set_is_running true task)
            (mkTaskResult (task_id task) RUNNING (clock_start w) None "" None 0) w
            (logger INFO
               ("Executing task: " +:+ name task +:+ " (" +:+ task_id task +:+ ")")
               (update_task t (set_is_running true) s))
          = Returned
              (mkTaskResult (task_id task) RUNNING (clock_start w) None "" None 0,
               logger INFO
                 ("Executing task: " +:+ name task +:+ " (" +:+ task_id task +:+ ")")
                 (update_task t (set_is_running true) s))) as ->.
  { unfold run_action, _execute_http_request. cbn [command set_is_running].
    destruct Hkind as [->|(-> & -> & code & text & ->)]; reflexivity. }
  rewrite handle_retries_not_failed by discriminate.
  rewrite send_notifications_running by reflexivity.
  unfold _save_task_result. rewrite Hdb.
  split; [reflexivity|]. split; [reflexivity|]. split; [reflexivity|].
  cbn [heap set_history]. heap_frames. now rewrite Hh.
Qed.

Lemma in_process_action_stays_running_witness :
  notify_on_success P = true ∧ email_username (config with_P) ≠ "" ∧
  let s' := _execute_task 0 (world 0 (10 * second) (12 * second) exit_0) with_P in
  history s' =
    [mkTaskResult "P" RUNNING (10 * second) (Some (12 * second)) "" None (2 * second)] ∧
  outbox s' = [] ∧ timers s' = [] ∧
  (retry_count <$> heap s' !! 0%nat) = Some 0 ∧
  (last_run <$> heap s' !! 0%nat) = Some (Some (10 * second)).
Proof.
  split; [reflexivity|]. split; [discriminate|].
  exact (in_process_action_stays_running with_P 0 P
           (world 0 (10 * second) (12 * second) exit_0)
           eq_refl (or_introl eq_refl) eq_refl).
Defined.

(** ** Failures of the recorder and of the notifier stay local *)

Lemma world_eta (w : World) : w = with_db (db_error w) (with_smtp (smtp_error w) w).
Proof. now destruct w. Qed.

Lemma run_action_world (task : Task) (r : TaskResult) (w : World) (s : Scheduler)
    (db smtp : option string) :
  run_action task r (with_db db (with_smtp smtp w)) s = run_action task r w s.
Proof. reflexivity. Qed.

(** The [finally] block, laid out: the result [r'] and the state [base]
    it starts from do not depend on SQLite or on the SMTP server. *)
Lemma execute_task_shape (s : Scheduler) (t : ref) (task : Task) (w : World) :
  heap s !! t = Some task ->
  ∃ r' base, ∀ db smtp,
    _execute_task t (with_db db (with_smtp smtp w)) s =
    handle_retries t r'
      (_send_notifications (set_is_running true task) r' (with_db db (with_smtp smtp w))
         (_save_task_result r' (with_db db (with_smtp smtp w)) base)).
Proof.
  intros Hh. unfold _execute_task, begin_execution. rewrite Hh.
  unfold finish_execution. rewrite (begin_lookup t task s _ Hh).
  cbn [clock_start clock_end with_db with_smtp].
  set (r0 := mkTaskResult _ _ _ _ _ _ _). set (s0 := logger _ _ _).
  destruct (run_action (set_is_running true task) r0 w s0) as [[r' s']|e] eqn:Ea.
  - eexists _, _. intros db smtp.
    rewrite run_action_world, Ea. reflexivity.
  - eexists _, _. intros db smtp.
    rewrite run_action_world, Ea. reflexivity.
Qed.

Lemma handle_retries_core (t : ref) (r : TaskResult) (s1 s2 : Scheduler) :
  heap s1 = heap s2 -> timers s1 = timers s2 ->
  heap (handle_retries t r s1) = heap (handle_retries t r s2) ∧
  timers (handle_retries t r s1) = timers (handle_retries t r s2).
Proof.
  intros Hh Ht. unfold handle_retries. rewrite Hh.
  destruct (heap s2 !! t) as [task|] eqn:E; [|now split].
  destruct (_ && _); [|now split].
  unfold update_task. cbn. now rewrite Hh, Ht.
Qed.

Lemma send_notifications_outbox (task : Task) (r : TaskResult) (w w' : World)
    (s1 s2 : Scheduler) :
  config s1 = config s2 -> outbox s1 = outbox s2 -> smtp_error w = smtp_error w' ->
  outbox (_send_notifications task r w s1) = outbox (_send_notifications task r w' s2).
Proof.
  intros Hc Ho Hs. unfold _send_notifications. rewrite Hc, Hs.
  repeat match goal with
         | |- context [if ?b then _ else _] => destruct b
         | |- context [match smtp_error w' with _ => _ end] => destruct (smtp_error w')
         end; cbn; now rewrite ?Ho.
Qed.

(** X5. Whether the mail goes out or the SMTP server fails has no effect
    on the run: the Task objects, the recorded history and the retry
    timers are the same for every answer of the server. *)
Theorem notification_failure_isolated (s : Scheduler) (t : ref) (w : World)
    (e : option string) :
  let s1 := _execute_task t w s in
  let s2 := _execute_task t (with_smtp e w) s in
  heap s2 = heap s1 ∧ history s2 = history s1 ∧ timers s2 = timers s1.
Proof.
  intros s1 s2. subst s1 s2.
  destruct (heap s !! t) as [task|] eqn:Hh.
  2:{ unfold _execute_task, begin_execution. now rewrite Hh. }
  destruct (execute_task_shape s t task w Hh) as (r' & base & Hshape).
  rewrite (world_eta w) at 2 4 6.
  assert (with_smtp e w = with_db (db_error w) (with_smtp e w)) as -> by now destruct w.
  rewrite !Hshape.
  rewrite !history_handle_retries, !history_send_notifications,
    !history_save_task_result.
  split; [|split; [reflexivity|]];
    apply handle_retries_core;
    rewrite ?(proj1 (send_notifications_frame _ _ _ _)),
      ?(proj2 (send_notifications_frame _ _ _ _)),
      ?(proj1 (save_task_result_frame _ _ _)),
      ?(proj2 (save_task_result_frame _ _ _)); reflexivity.
Qed.

(** X6. Whether SQLite takes the INSERT or raises has no effect on the
    rest of the run: the Task objects (so [last_run] and [retry_count]),
    the retry timers and the notifications sent are the same. *)
Theorem save_failure_isolated (s : Scheduler) (t : ref) (w : World)
    (e : option string) :
  let s1 := _execute_task t w s in
  let s2 := _execute_task t (with_db e w) s in
  heap s2 = heap s1 ∧ timers s2 = timers s1 ∧ outbox s2 = outbox s1.
Proof.
  intros s1 s2. subst s1 s2.
  destruct (heap s !! t) as [task|] eqn:Hh.
  2:{ unfold _execute_task, begin_execution. now rewrite Hh. }
  destruct (execute_task_shape s t task w Hh) as (r' & base & Hshape).
  rewrite (world_eta w) at 2 4 6.
  assert (with_db e w = with_db e (with_smtp (smtp_error w) w)) as -> by now destruct w.
  rewrite !Hshape.
  split; [|split].
  - apply handle_retries_core;
      rewrite ?(proj1 (send_notifications_frame _ _ _ _)),
        ?(proj2 (send_notifications_frame _ _ _ _)),
        ?(proj1 (save_task_result_frame _ _ _)),
        ?(proj2 (save_task_result_frame _ _ _)); reflexivity.
  - apply handle_retries_core;
      rewrite ?(proj1 (send_notifications_frame _ _ _ _)),
        ?(proj2 (send_notifications_frame _ _ _ _)),
        ?(proj1 (save_task_result_frame _ _ _)),
        ?(proj2 (save_task_result_frame _ _ _)); reflexivity.
  - rewrite !outbox_handle_retries. apply send_notifications_outbox.
    + unfold _save_task_result. cbn [db_error with_db with_smtp].
      destruct e, (db_error w); reflexivity.
    + unfold _save_task_result. cbn [db_error with_db with_smtp].
      destruct e, (db_error w); reflexivity.
    + reflexivity.
Qed.

(** ** Retries of an action that raises, from first attempt to the cap *)

Lemma attempts_invariant (s : Scheduler) (t : ref) (task : Task) (w : World)
    (msg : string) (k : nat) :
  heap s !! t = Some task ->
  PyStr.startswith (command task) "python:" = false ->
  PyStr.startswith (command task) "http:" = true ->
  http_get w = RequestError msg ->
  retry_count task = 0 -> 0 <= max_retries task ->
  ∃ task_k, heap (attempts k t w s) !! t = Some task_k ∧
    same_definition task task_k ∧
    retry_count task_k = Z.min (Z.of_nat k) (max_retries task) ∧
    timers (attempts k t w s) =
      timers s ++ replicate (Z.to_nat (Z.min (Z.of_nat k) (max_retries task))) (60, t).
Proof.
  intros Hh Hpy Hhttp Hget Hrc Hmax. induction k as [|k IH].
  - exists task. cbn [attempts]. split; [exact Hh|]. split; [apply same_definition_refl|].
    split; [lia|]. replace (Z.min (Z.of_nat 0) (max_retries task)) with 0 by lia.
    cbn. now rewrite app_nil_r.
  - destruct IH as (tk & Hk & Hdef & Hcount & Htimers).
    cbn [attempts]. set (sk := attempts k t w s) in *.
    pose proof Hdef as (_ & _ & Hcmd & _ & _ & Hmr & _).
    destruct (runtime_step_execute t w sk) as (_ & _ & _ & _ & _ & _ & _ & _ & _ & _ & Hobj).
    destruct (Hobj tk Hk) as (tk' & Hk' & Hdef').
    exists tk'. split; [exact Hk'|]. split; [eapply same_definition_trans; eauto|].
    pose proof (raising_failure_respects_cap sk t tk w msg Hk) as Hcap.
    rewrite Hcmd in Hcap. specialize (Hcap Hpy Hhttp Hget). cbn zeta in Hcap.
    destruct Hcap as [_ Hcap]. rewrite Hk' in Hcap. rewrite Hmr, Hcount in Hcap.
    destruct (Z.min (Z.of_nat k) (max_retries task) <? max_retries task) eqn:E.
    + apply Z.ltb_lt in E. destruct Hcap as [Ht [= Hr]].
      replace (Z.min (Z.of_nat (S k)) (max_retries task))
        with (Z.min (Z.of_nat k) (max_retries task) + 1) by lia.
      split; [exact Hr|]. rewrite Ht, Htimers, <- app_assoc. f_equal.
      replace (Z.to_nat (Z.min (Z.of_nat k) (max_retries task) + 1))
        with (S (Z.to_nat (Z.min (Z.of_nat k) (max_retries task)))) by lia.
      now rewrite replicate_S_end.
    + apply Z.ltb_ge in E. destruct Hcap as [Ht [= Hr]].
      replace (Z.min (Z.of_nat (S k)) (max_retries task))
        with (Z.min (Z.of_nat k) (max_retries task)) by lia.
      split; [exact Hr|]. now rewrite Ht, Htimers.
Qed.

(** X7. For an action whose command starts with [http:], whose request
    keeps failing, and a
    task that starts with [retry_count] 0: after [k] consecutive failed
    attempts [retry_count] is [min k max_retries] and exactly that many
    retry timers were started, each for 60 seconds.  So attempt number
    [max_retries + 1] and every later one starts no retry, and with
    [max_retries = 0] none is ever started. *)
Theorem raising_failures_stop_at_cap (s : Scheduler) (t : ref) (task : Task)
    (w : World) (msg : string) (k : nat) :
  heap s !! t = Some task ->
  PyStr.startswith (command task) "python:" = false ->
  PyStr.startswith (command task) "http:" = true ->
  http_get w = RequestError msg ->
  retry_count task = 0 -> 0 <= max_retries task ->
  let n := Z.min (Z.of_nat k) (max_retries task) in
  (retry_count <$> heap (attempts k t w s) !! t) = Some n ∧
  timers (attempts k t w s) = timers s ++ replicate (Z.to_nat n) (60, t).
Proof.
  intros Hh Hpy Hhttp Hget Hrc Hmax n.
  destruct (attempts_invariant s t task w msg k Hh Hpy Hhttp Hget Hrc Hmax)
    as (tk & Hk & _ & Hcount & Htimers).
  subst n. split; [rewrite Hk; cbn; now rewrite Hcount|exact Htimers].
Qed.

Lemma raising_failures_stop_at_cap_witness :
  max_retries H = 3 ∧
  (retry_count <$> heap (attempts 10 0 unreachable with_H) !! 0%nat) = Some 3 ∧
  timers (attempts 10 0 unreachable with_H) = [(60, 0%nat); (60, 0%nat); (60, 0%nat)].
Proof.
  split; [reflexivity|].
  exact (raising_failures_stop_at_cap with_H 0 H unreachable "connection refused" 10
           eq_refl eq_refl eq_refl eq_refl eq_refl ltac:(discriminate)).
Defined.

(** ** What installing a trigger can do *)

Lemma prefix_app_inv (a b s : string) :
  String.prefix (a +:+ b) s = true -> ∃ x, s = a +:+ x ∧ String.prefix b x = true.
Proof.
  revert s. induction a as [|c a IH]; intros s H.
  - exists s. split; [reflexivity|exact H].
  - change (String c a +:+ b) with (String c (a +:+ b)) in H.
    destruct s as [|c' s]; [discriminate|].
    cbn [String.prefix] in H.
    destruct (ascii_dec c c') as [->|]; [|discriminate].
    destruct (IH s H) as (x & -> & Hx). now exists x.
Qed.

Lemma contains_head (b x : string) :
  String.prefix b x = true -> PyStr.contains b x = true.
Proof. intros H. destruct x; cbn [PyStr.contains]; now rewrite H. Qed.

Lemma contains_after (a b x : string) :
  String.prefix b x = true -> PyStr.contains b (a +:+ x) = true.
Proof.
  intros H. induction a as [|c a IH].
  - now apply contains_head.
  - change (String c a +:+ x) with (String c (a +:+ x)).
    cbn [PyStr.contains]. rewrite IH. apply orb_true_r.
Qed.

(** A string that contains [a ++ b] contains [b]: whatever contains
    "monday" or "tuesday" contains "day". *)
Lemma contains_suffix (a b s : string) :
  PyStr.contains (a +:+ b) s = true -> PyStr.contains b s = true.
Proof.
  induction s as [|c s IH]; intros H; cbn [PyStr.contains] in H;
    apply orb_true_iff in H as [H|H].
  - destruct (prefix_app_inv a b _ H) as (x & Hx & Hp).
    rewrite Hx. now apply contains_after.
  - discriminate.
  - destruct (prefix_app_inv a b _ H) as (x & Hx & Hp).
    rewrite Hx. now apply contains_after.
  - cbn [PyStr.contains]. rewrite (IH H). apply orb_true_r.
Qed.

Lemma every_do_cases (n : Z) (u : TimeUnit) (day : option Weekday)
    (ts : option string) (f : JobFunc) (tag : string) (s : Scheduler) :
  every_do n u day ts f tag s
  = Returned (set_jobs (do_tag (mkJob n u day ts f [tag])) s) ∨
  ∃ e, every_do n u day ts f tag s = Raised e.
Proof.
  unfold every_do. destruct ts as [str|]; [|now left].
  destruct (at_time_ok u day str); [now left|right; eauto].
Qed.

(** What [_parse_every_expression] returns: the scheduler as it was, or
    with one job added that calls the wrapper on the task, carries the
    task's id as its tag and has no start day. *)
Lemma parse_every_cases (t : ref) (task : Task) (expr : string) (s s' : Scheduler) :
  _parse_every_expression t task expr s = Returned s' ->
  s' = s ∨
  ∃ n u ts, s' = set_jobs (do_tag (mkJob n u None ts (WrapperJob t) [task_id task])) s.
Proof.
  unfold _parse_every_expression.
  assert (∀ n u ts,
            every_do n u None ts (WrapperJob t) (task_id task) s = Returned s' ->
            s' = s ∨
            ∃ n u ts,
              s' = set_jobs (do_tag (mkJob n u None ts (WrapperJob t) [task_id task])) s)
    as Hdo.
  { intros n u ts H. right. exists n, u, ts.
    destruct (every_do_cases n u None ts (WrapperJob t) (task_id task) s) as [E|[e E]];
      congruence. }
  destruct (PyStr.contains "minute" expr).
  { destruct (counted _); apply Hdo. }
  destruct (PyStr.contains "hour" expr).
  { destruct (PyStr.contains "at" expr).
    - destruct (after_at expr); [apply Hdo|discriminate].
    - destruct (counted _); apply Hdo. }
  destruct (PyStr.contains "day" expr) eqn:Eday.
  { destruct (PyStr.contains "at" expr).
    - destruct (after_at expr); [apply Hdo|discriminate].
    - apply Hdo. }
  destruct (PyStr.contains "week" expr).
  { destruct (counted _); apply Hdo. }
  destruct (PyStr.contains "monday" expr) eqn:Emon.
  { apply (contains_suffix "mon" "day") in Emon. congruence. }
  destruct (PyStr.contains "tuesday" expr) eqn:Etue.
  { apply (contains_suffix "tues" "day") in Etue. congruence. }
  intros [= <-]. now left.
Qed.

Lemma set_log_nil (s : Scheduler) : set_log (fun old => old ++ []) s = s.
Proof. destruct s. unfold set_log. cbn. now rewrite app_nil_r. Qed.

Lemma schedule_task_installed (t : ref) (task : Task) (s : Scheduler) :
  Installed t task s (_schedule_task t task s).
Proof.
  unfold _schedule_task.
  destruct (negb (enabled task)).
  { rewrite <- (set_log_nil s) at 2. constructor. }
  set (expr := PyStr.strip (PyStr.lower (schedule_expr task))).
  destruct (PyStr.startswith expr "every").
  { destruct (_parse_every_expression t task expr s) as [s'|e] eqn:E.
    - apply parse_every_cases in E as [->|(n & u & ts & ->)].
      + rewrite <- (set_log_nil s) at 2. constructor.
      + rewrite <- (set_log_nil s) at 2. constructor.
    - apply (InstalledNothing t task s [_]). }
  destruct (PyStr.startswith expr "at").
  { unfold _parse_at_expression.
    destruct (PyStr.contains "daily" _);
      match goal with
      | |- context [every_do ?n ?u ?d ?ts ?f ?tag s] =>
          destruct (every_do_cases n u d ts f tag s) as [E|[e E]]; rewrite E
      end;
      first [ rewrite <- (set_log_nil s) at 2; constructor
            | apply (InstalledNothing t task s [_]) ]. }
  destruct (PyStr.startswith expr "cron:").
  { unfold _parse_cron_expression, every_do. apply (InstalledWrapper t task s [_]). }
  destruct (bool_decide (expr = "on_file_change")).
  { unfold _setup_file_watcher.
    destruct (PyStr.contains "watch:" (command task));
      [|rewrite <- (set_log_nil s) at 2; constructor].
    destruct (PyStr.split (command task) "watch:") as [|? [|x ?]];
      try apply (InstalledNothing t task s [_]).
    apply (InstalledWatcher t task s [_]). }
  destruct (PyStr.startswith expr "on_url_change") eqn:Eurl.
  { unfold _setup_url_monitor, every_do. now constructor. }
  destruct (bool_decide (expr = "on_resource_threshold")) eqn:Eres.
  { unfold _setup_resource_monitor, every_do. constructor.
    now apply bool_decide_eq_true in Eres. }
  apply (InstalledNothing t task s [_]).
Qed.

Lemma installed_frame (t : ref) (task : Task) (s s' : Scheduler) :
  Installed t task s s' ->
  heap s' = heap s ∧ tasks s' = tasks s ∧ history s' = history s ∧
  threads s' = threads s ∧ timers s' = timers s ∧ executing s' = executing s ∧
  config s' = config s ∧ running s' = running s ∧ outbox s' = outbox s.
Proof. intros []; repeat split. Qed.

(** X8. [_schedule_task] installs at most one job per call, and the job
    it installs has no start day and carries one tag: the task's id, or
    the id followed by [_url_monitor] or [_resource_monitor].  It never
    removes or changes a job that is already there, never touches the
    Task objects, the registry, the history, the threads or the timers,
    and for a task that is not enabled it changes nothing at all. *)
Theorem schedule_task_at_most_one_job (t : ref) (task : Task) (s : Scheduler) :
  let s' := _schedule_task t task s in
  (∃ l, jobs s' = jobs s ++ l ∧ (length l <= 1)%nat ∧
        ∀ j, j ∈ l -> start_day j = None ∧ trigger_tag (task_id task) j) ∧
  heap s' = heap s ∧ tasks s' = tasks s ∧ history s' = history s ∧
  threads s' = threads s ∧ timers s' = timers s ∧
  (enabled task = false -> s' = s).
Proof.
  intros s'. subst s'.
  pose proof (schedule_task_installed t task s) as Hi.
  destruct (installed_frame _ _ _ _ Hi) as (Hh & Ht & Hhi & Hth & Hti & _).
  split; [|repeat split; auto].
  - remember (_schedule_task t task s) as s' eqn:E. clear E Hh Ht Hhi Hth Hti.
    destruct Hi; cbn.
    + exists []. rewrite app_nil_r. split; [reflexivity|]. split; [cbn; lia|].
      intros j Hj. inversion Hj.
    + eexists [_]. split; [reflexivity|]. split; [cbn; lia|].
      intros j Hj. apply list_elem_of_singleton in Hj as ->. split; [reflexivity|].
      now left.
    + exists []. rewrite app_nil_r. split; [reflexivity|]. split; [cbn; lia|].
      intros j Hj. inversion Hj.
    + eexists [_]. split; [reflexivity|]. split; [cbn; lia|].
      intros j Hj. apply list_elem_of_singleton in Hj as ->. split; [reflexivity|].
      right. now left.
    + eexists [_]. split; [reflexivity|]. split; [cbn; lia|].
      intros j Hj. apply list_elem_of_singleton in Hj as ->. split; [reflexivity|].
      right. now right.
  - intros He. unfold _schedule_task. now rewrite He.
Qed.

(** X9. An "every ..." expression that names a weekday is not scheduled
    for that weekday: since "monday" and "tuesday" contain "day", an
    expression that contains one of them and neither "minute" nor "hour"
    takes the daily branch, and the job it installs, if any, runs every
    day.  The two weekday branches of [_parse_every_expression] are never
    reached. *)
Theorem every_weekday_is_daily (t : ref) (task : Task) (expr : string)
    (s s' : Scheduler) :
  PyStr.contains "monday" expr = true ∨ PyStr.contains "tuesday" expr = true ->
  PyStr.contains "minute" expr = false ->
  PyStr.contains "hour" expr = false ->
  _parse_every_expression t task expr s = Returned s' ->
  ∃ ts, jobs s' = jobs s ++ [mkJob 1 Days None ts (WrapperJob t) [task_id task]].
Proof.
  intros Hwd Hmin Hhour.
  assert (PyStr.contains "day" expr = true) as Hday.
  { destruct Hwd as [H|H];
      [apply (contains_suffix "mon" "day")|apply (contains_suffix "tues" "day")];
      exact H. }
  unfold _parse_every_expression. rewrite Hmin, Hhour, Hday.
  destruct (PyStr.contains "at" expr).
  - destruct (after_at expr) as [tp|e]; [|discriminate].
    intros H. exists (Some tp). now apply every_do_jobs in H.
  - intros H. exists None. now apply every_do_jobs in H.
Qed.

Lemma every_weekday_is_daily_witness :
  let s := new_scheduler default_config in
  ∃ ts, jobs (set_jobs (do_tag (mkJob 1 Days None (Some "08:00") (WrapperJob 0) ["A"])) s)
        = jobs s ++ [mkJob 1 Days None ts (WrapperJob 0) ["A"]].
Proof.
  exact (every_weekday_is_daily 0 A "every monday at 08:00"
           (new_scheduler default_config) _
           (or_introl eq_refl) eq_refl eq_refl eq_refl).
Defined.

(** ** Registry: add, remove, and both *)

(** X10. [add_task] always returns True.  Afterwards the id is registered
    to a new Task object that holds exactly the task given; every other
    id is registered as before, every Task object that existed is
    unchanged (also the one the id named before), and the history, the
    threads and the timers are untouched. *)
Theorem add_task_registers (task : Task) (s : Scheduler) :
  let s' := (add_task task s).2 in
  (add_task task s).1 = true ∧
  tasks s' !! task_id task = Some (length (heap s)) ∧
  heap s' !! length (heap s) = Some task ∧
  (∀ id, id ≠ task_id task -> tasks s' !! id = tasks s !! id) ∧
  (∀ t old, heap s !! t = Some old -> heap s' !! t = Some old) ∧
  history s' = history s ∧ threads s' = threads s ∧ timers s' = timers s.
Proof.
  intros s'. subst s'. unfold add_task. cbn [fst snd].
  set (s0 := match tasks s !! task_id task with
             | Some _ => logger WARNING _ s
             | None => s
             end).
  assert (heap s0 = heap s ∧ tasks s0 = tasks s ∧ history s0 = history s ∧
          threads s0 = threads s ∧ timers s0 = timers s) as (E1 & E2 & E3 & E4 & E5).
  { subst s0. destruct (tasks s !! task_id task); repeat split. }
  rewrite E1.
  set (s1 := set_tasks _ (set_heap _ s0)).
  destruct (installed_frame _ _ _ _ (schedule_task_installed (length (heap s)) task s1))
    as (Hh & Ht & Hhi & Hth & Hti & _).
  change (heap (logger ?a ?b ?c)) with (heap c).
  change (tasks (logger ?a ?b ?c)) with (tasks c).
  change (history (logger ?a ?b ?c)) with (history c).
  change (threads (logger ?a ?b ?c)) with (threads c).
  change (timers (logger ?a ?b ?c)) with (timers c).
  rewrite Hh, Ht, Hhi, Hth, Hti. subst s1. cbn. rewrite E1, E2, E3, E4, E5.
  split; [reflexivity|]. split; [apply lookup_insert_eq|].
  split; [now rewrite list_lookup_middle|].
  split; [intros id Hne; now apply lookup_insert_ne|].
  split; [|repeat split].
  intros t old Hold. rewrite lookup_app_l; [exact Hold|].
  eapply lookup_lt_Some; eauto.
Qed.

Lemma clear_none_tagged (id : string) (l : list Job) :
  List.filter (has_tag id) (clear id l) = [].
Proof.
  unfold clear. induction l as [|j l IH]; [reflexivity|]. cbn.
  destruct (has_tag id j) eqn:E; cbn; [exact IH|]. now rewrite E.
Qed.

Lemma clear_keeps_untagged (id : string) (j : Job) (l : list Job) :
  In j l -> has_tag id j = false -> In j (clear id l).
Proof. intros Hin Ht. apply filter_In. split; [exact Hin|]. now rewrite Ht. Qed.


(** X11. [remove_task] of an id that is not registered returns False and
    only logs the warning that the task was not found.  For a registered id it returns True; afterwards
    the id is gone from the registry and the other ids are as before, no
    job carries the id as a tag, every job without that tag is still
    installed, the file observer kept under the id is stopped and
    forgotten, and the Task objects and the history are untouched (the
    rows of a removed task stay). *)
Theorem remove_task_effect (id : string) (s : Scheduler) :
  (tasks s !! id = None ->
     (remove_task id s).1 = false ∧
     logged [(WARNING, "Task " +:+ id +:+ " not found")] s (remove_task id s).2) ∧
  (∀ t, tasks s !! id = Some t ->
     let s' := (remove_task id s).2 in
     (remove_task id s).1 = true ∧
     tasks s' = delete id (tasks s) ∧
     jobs_tagged id s' = [] ∧
     (∀ j, In j (jobs s) -> has_tag id j = false -> In j (jobs s')) ∧
     file_observers s' !! id = None ∧
     (∀ n o, file_observers s !! id = Some n -> observers s !! n = Some o ->
        observers s' !! n = Some (mkObserver (obs_task_id o) (obs_path o) false)) ∧
     heap s' = heap s ∧ history s' = history s).
Proof.
  unfold remove_task. split.
  - intros ->. cbn. split; [reflexivity|]. apply logged_logger.
  - intros t ->. unfold jobs_tagged. cbn.
    destruct (file_observers s !! id) as [n|] eqn:Ef; cbn.
    + repeat split.
      * apply clear_none_tagged.
      * intros j. apply clear_keeps_untagged.
      * apply lookup_delete_eq.
      * intros n' o [= <-] Ho. unfold stop_observer. rewrite Ho.
        apply list_lookup_insert_eq. eapply lookup_lt_Some; eauto.
    + repeat split.
      * apply clear_none_tagged.
      * intros j. apply clear_keeps_untagged.
      * exact Ef.
      * intros n' o H. discriminate.
Qed.





(** ** Resource monitor *)

Lemma py_gt_true (x q : Q) : (q < x)%Q -> py_gt x (JNum q) = Returned true.
Proof.
  intros H. cbn. f_equal. apply negb_true_iff.
  destruct (Qle_bool x q) eqn:E; [|reflexivity].
  apply Qle_bool_iff in E. now apply Qlt_not_le in H.
Qed.

Lemma py_gt_false (x q : Q) : (x <= q)%Q -> py_gt x (JNum q) = Returned false.
Proof.
  intros H. cbn. f_equal. apply negb_false_iff. now apply Qle_bool_iff.
Qed.

(** X13. With [psutil] answering and numeric thresholds (those of the
    configuration, or 80, 80 and 90 for the keys it lacks), the resource
    poll never raises; it starts one execution of its task when the CPU,
    the memory or the disk reading is strictly above its threshold, and
    does nothing when all three are at or below theirs. *)
Theorem check_resources_threshold (s : Scheduler) (t : ref) (task : Task)
    (w : World) (r : Readings) (ct mt dt : Q) :
  psutil w = Returned r ->
  heap s !! t = Some task -> tasks s !! task_id task = Some t ->
  dict_get (monitoring (config s)) "cpu_threshold" (JNum 80) = JNum ct ->
  dict_get (monitoring (config s)) "memory_threshold" (JNum 80) = JNum mt ->
  dict_get (monitoring (config s)) "disk_threshold" (JNum 90) = JNum dt ->
  ((ct < cpu_percent r ∨ mt < memory_percent r ∨ dt < disk_percent r)%Q ->
   check_resources t w s = Returned (set_threads (fun l => l ++ [t]) s)) ∧
  ((cpu_percent r <= ct ∧ memory_percent r <= mt ∧ disk_percent r <= dt)%Q ->
   check_resources t w s = Returned s).
Proof.
  intros Hp Hh Hreg Hc Hm Hd. unfold check_resources.
  rewrite Hp, Hc, Hm, Hd, Hh. unfold run_task_immediately. rewrite Hreg. cbn [snd].
  split.
  - intros Habove.
    destruct (Qlt_le_dec ct (cpu_percent r)) as [H1|H1].
    { now rewrite (py_gt_true _ _ H1). }
    rewrite (py_gt_false _ _ H1). cbn [py_or].
    destruct (Qlt_le_dec mt (memory_percent r)) as [H2|H2].
    { now rewrite (py_gt_true _ _ H2). }
    rewrite (py_gt_false _ _ H2). cbn [py_or].
    destruct Habove as [H|[H|H]].
    + now apply Qlt_not_le in H.
    + now apply Qlt_not_le in H.
    + now rewrite (py_gt_true _ _ H).
  - intros (H1 & H2 & H3).
    now rewrite (py_gt_false _ _ H1), (py_gt_false _ _ H2), (py_gt_false _ _ H3).
Qed.

Lemma check_resources_threshold_witness :
  check_resources 0 hot (with_R default_config)
  = Returned (set_threads (fun l => l ++ [0%nat]) (with_R default_config)) ∧
  check_resources 0 at_threshold (with_R default_config)
  = Returned (with_R default_config).
Proof.
  split.
  - apply (check_resources_threshold (with_R default_config) 0 R hot
             (mkReadings 85 20 30) 80 80 90 eq_refl eq_refl eq_refl eq_refl eq_refl
             eq_refl).
    left. reflexivity.
  - apply (check_resources_threshold (with_R default_config) 0 R at_threshold
             (mkReadings 80 80 90) 80 80 90 eq_refl eq_refl eq_refl eq_refl eq_refl
             eq_refl).
    repeat split; discriminate.
Defined.

(** ** URL monitor over a sequence of polls *)

Lemma count_changes_cons (stored : option Z) (h : option Z) (rest : list (option Z)) :
  count_changes stored (h :: rest)
  = (count_changes stored [h] + count_changes (last_hash stored [h]) rest)%nat.
Proof.
  destruct h as [h|]; cbn; [|reflexivity].
  destruct stored as [h0|]; [|reflexivity].
  destruct (bool_decide (h ≠ h0)); reflexivity.
Qed.

Lemma last_hash_cons (stored : option Z) (h : option Z) (rest : list (option Z)) :
  last_hash stored (h :: rest) = last_hash (last_hash stored [h]) rest.
Proof. now destruct h. Qed.

Lemma check_url_step (s : Scheduler) (t : ref) (task : Task) (url : string)
    (w : World) :
  heap s !! t = Some task -> tasks s !! task_id task = Some t ->
  let s1 := check_url t url w s in
  ∃ task1, heap s1 !! t = Some task1 ∧ task_id task1 = task_id task ∧
    _last_url_hash task1 = last_hash (_last_url_hash task) [fetched_hash w] ∧
    tasks s1 = tasks s ∧ history s1 = history s ∧
    threads s1 =
      threads s ++ replicate (count_changes (_last_url_hash task) [fetched_hash w]) t.
Proof.
  intros Hh Hreg s1. subst s1. unfold check_url, fetched_hash. rewrite Hh.
  destruct (http_get w) as [code text|e].
  - destruct (_last_url_hash task) as [h0|] eqn:El.
    + cbn [count_changes last_hash]. destruct (bool_decide (py_hash w text ≠ h0)) eqn:Eb.
      * unfold run_task_immediately.
        change (tasks (update_task ?a ?b ?c)) with (tasks c). rewrite Hreg.
        exists (set_last_url_hash (Some (py_hash w text)) task).
        split; [|repeat split].
        cbn [snd]. change (heap (set_threads ?f ?c)) with (heap c).
        rewrite lookup_update_task, Hh. reflexivity.
      * exists task. cbn. rewrite app_nil_r. repeat split; auto.
        apply bool_decide_eq_false in Eb.
        destruct (decide (py_hash w text = h0)) as [->|Hne]; [exact El|].
        now exfalso.
    + exists (set_last_url_hash (Some (py_hash w text)) task).
      split; [rewrite lookup_update_task, Hh; reflexivity|].
      cbn. rewrite app_nil_r. repeat split.
  - exists task. cbn. rewrite app_nil_r. repeat split; auto.
Qed.

(** X15. Over any sequence of polls of a registered task's URL monitor,
    polls whose request fails are transparent: the number of executions
    started is the number of changes of the content hash between
    consecutive polls that got a response (the first response only sets
    the baseline), and the hash stored at the end is that of the last
    response.  No poll writes to the history. *)
Theorem polls_fire_once_per_change (ws : list World) (s : Scheduler) (t : ref)
    (task : Task) (url : string) :
  heap s !! t = Some task -> tasks s !! task_id task = Some t ->
  let hs := map fetched_hash ws in
  let s' := polls t url ws s in
  threads s' = threads s ++ replicate (count_changes (_last_url_hash task) hs) t ∧
  (_last_url_hash <$> heap s' !! t) = Some (last_hash (_last_url_hash task) hs) ∧
  history s' = history s.
Proof.
  revert s task. induction ws as [|w ws IH]; intros s task Hh Hreg hs s'; subst hs s'.
  - cbn. rewrite app_nil_r, Hh. repeat split.
  - cbn [polls map].
    destruct (check_url_step s t task url w Hh Hreg)
      as (task1 & H1 & Hid & Hl & Ht & Hhi & Hth).
    rewrite <- Hid, <- Ht in Hreg.
    destruct (IH _ task1 H1 Hreg) as (IH1 & IH2 & IH3).
    rewrite IH1, IH2, IH3, Hth, Hhi, Hl.
    rewrite (count_changes_cons _ (fetched_hash w) (map fetched_hash ws)),
      (last_hash_cons _ (fetched_hash w) (map fetched_hash ws)),
      replicate_add, app_assoc.
    repeat split.
Qed.

Lemma polls_fire_once_per_change_witness :
  let ws := [page "v1"; unreachable; page "v1"; page "v22"; unreachable; page "v22";
             page "v1"] in
  let s' := polls 0 "http://example.com/status" ws with_U in
  threads s' = [0%nat; 0%nat] ∧
  (_last_url_hash <$> heap s' !! 0%nat) = Some (Some 2) ∧
  history s' = [].
Proof.
  exact (polls_fire_once_per_change
           [page "v1"; unreachable; page "v1"; page "v22"; unreachable; page "v22";
            page "v1"]
           with_U 0 U "http://example.com/status" eq_refl eq_refl).
Defined.

(** ** Stopping the scheduler *)




(** ** Persistence of the task definitions *)

Lemma parse_time_raises (v : option TimeValue) :
  (∃ e, parse_time v = Raised e) ↔ unreadable_time v.
Proof.
  unfold parse_time, unreadable_time. split.
  - intros [e H]. destruct v as [[z|txt|[]]|]; try discriminate.
    + left. exists txt. split; [reflexivity|].
      intros ->. discriminate.
    + now right.
  - intros [[txt [-> Hne]]| ->].
    + rewrite bool_decide_eq_false_2 by exact Hne. eauto.
    + eauto.
Qed.

(** X17. Reading back what [to_dict] wrote gives the task with its
    definition, [last_run] and [next_run], and with the runtime state
    reset: [retry_count] 0, not running, no stored URL hash; writing that
    task again gives the same dictionary.  [from_dict] raises exactly
    when one of the keys task_id, name, command and schedule_expr is
    missing (a KeyError) or the value under last_run or next_run is a
    non-empty string that is not an ISO timestamp or a true value that is
    not a string (the error of [fromisoformat]).  A dictionary with only
    the four required keys gets the defaults: enabled, no retries,
    timeout 300, no dependencies, notify on failure only. *)
Theorem from_dict_to_dict (t : Task) (data : TaskDict) :
  from_dict (to_dict t)
  = Returned (set_last_url_hash None (set_is_running false (set_retry_count 0 t))) ∧
  to_dict (set_last_url_hash None (set_is_running false (set_retry_count 0 t)))
  = to_dict t ∧
  ((∃ e, from_dict data = Raised e) ↔
   d_task_id data = None ∨ d_name data = None ∨ d_command data = None ∨
   d_schedule_expr data = None ∨
   unreadable_time (d_last_run data) ∨ unreadable_time (d_next_run data)) ∧
  (∀ id nm cmd expr,
     from_dict (mkTaskDict (Some id) (Some nm) (Some cmd) (Some expr)
                  None None None None None None None None)
     = Returned (new_task id nm cmd expr true 0 300 [] false true)).
Proof.
  split; [destruct t as [? ? ? ? ? ? ? ? ? ? [lr|] [nr|] ? ? ?]; reflexivity|].
  split; [now destruct t|]. split; [|reflexivity].
  rewrite <- !parse_time_raises. unfold from_dict, required.
  destruct (d_task_id data), (d_name data), (d_command data), (d_schedule_expr data);
    try solve [split; intros _; eauto 10].
  destruct (parse_time (d_last_run data)) as [lr|e1],
           (parse_time (d_next_run data)) as [nr|e2];
    split; intros H;
    repeat match goal with
           | H : ∃ _, _ |- _ => destruct H
           | H : _ ∨ _ |- _ => destruct H
           end;
    try discriminate; eauto 10.
Qed.

(** ** Loading the task file *)

Lemma load_loop_app_bad (good : list TaskDict) (bad : TaskDict) (rest : list TaskDict)
    (e : string) (s : Scheduler) :
  Forall (fun d => ∃ task, from_dict d = Returned task) good ->
  from_dict bad = Raised e ->
  ∃ sg, load_loop good s = Returned sg ∧
    load_loop (good ++ bad :: rest) s = Raised e ∧
    loaded_before_error (good ++ bad :: rest) s = sg.
Proof.
  intros Hgood Hbad. revert s. induction Hgood as [|d good [task Hd] _ IH]; intros s.
  - exists s. cbn. now rewrite Hbad.
  - cbn. rewrite Hd. apply IH.
Qed.

(** What a run of the loop keeps: the Task objects that existed, and the
    registration of every id that no entry carries. *)
Lemma load_loop_frame (ds : list TaskDict) (s s' : Scheduler) :
  load_loop ds s = Returned s' ->
  (∀ t old, heap s !! t = Some old -> heap s' !! t = Some old) ∧
  (∀ id, (∀ d task, d ∈ ds -> from_dict d = Returned task -> task_id task ≠ id) ->
     tasks s' !! id = tasks s !! id).
Proof.
  revert s. induction ds as [|d ds IH]; intros s; cbn.
  - intros [= <-]. now split.
  - destruct (from_dict d) as [task|e] eqn:Ed; [|discriminate].
    set (s1 := set_tasks _ (set_heap _ s)).
    destruct (installed_frame _ _ _ _ (schedule_task_installed (length (heap s)) task s1))
      as (Hh & Ht & _).
    intros H. destruct (IH _ H) as [IH1 IH2]. split.
    + intros t old Hold. apply IH1. rewrite Hh. subst s1. cbn.
      rewrite lookup_app_l; [exact Hold|]. eapply lookup_lt_Some; eauto.
    + intros id Hid. rewrite IH2.
      * rewrite Ht. subst s1. cbn. apply lookup_insert_ne.
        apply (Hid d task); [apply list_elem_of_here|exact Ed].
      * intros d' task' Hin. apply Hid. now apply list_elem_of_further.
Qed.

Lemma load_loop_lookup (ds : list TaskDict) (s s' : Scheduler) (i : nat)
    (d : TaskDict) (task : Task) :
  load_loop ds s = Returned s' ->
  ds !! i = Some d -> from_dict d = Returned task ->
  (∀ j d' task', (i < j)%nat -> ds !! j = Some d' -> from_dict d' = Returned task' ->
     task_id task' ≠ task_id task) ->
  ∃ t, tasks s' !! task_id task = Some t ∧ heap s' !! t = Some task.
Proof.
  revert s i. induction ds as [|d0 ds IH]; intros s i; [discriminate|].
  cbn [load_loop]. destruct (from_dict d0) as [task0|e] eqn:Ed0; [|discriminate].
  set (s1 := set_tasks _ (set_heap _ s)).
  destruct (installed_frame _ _ _ _ (schedule_task_installed (length (heap s)) task0 s1))
    as (Hh & Ht & _).
  intros Hload Hi Hd Hlast. destruct i as [|i].
  - injection Hi as ->. assert (task0 = task) as -> by congruence.
    destruct (load_loop_frame _ _ _ Hload) as [F1 F2].
    exists (length (heap s)). split.
    + rewrite F2.
      * rewrite Ht. subst s1. cbn. apply lookup_insert_eq.
      * intros d' task' Hin Hd'. apply list_elem_of_lookup in Hin as [j Hj].
        apply (Hlast (S j) d' task'); [lia|exact Hj|exact Hd'].
    + apply F1. rewrite Hh. subst s1. cbn. now rewrite list_lookup_middle.
  - apply (IH _ i Hload Hi Hd).
    intros j d' task' Hlt Hj. apply (Hlast (S j)); [lia|exact Hj].
Qed.

(** X18. [_load_tasks] on a file whose entries are well formed up to one
    that lacks a required key: the entries before it are loaded and
    scheduled, the error is logged, and the entries after it are never
    looked at (the result is the same whatever follows).  Each loaded id
    is registered to a Task object built from the last loaded entry that
    carries the id. *)
Theorem load_tasks_stops_at_bad_entry (good : list TaskDict) (bad : TaskDict)
    (rest : list TaskDict) (e : string) (s : Scheduler) :
  Forall (fun d => ∃ task, from_dict d = Returned task) good ->
  from_dict bad = Raised e ->
  ∃ sg, load_loop good s = Returned sg ∧
    _load_tasks (Some (Returned (good ++ bad :: rest))) s
    = logger ERROR ("Error loading tasks: " +:+ e) sg ∧
    ∀ i d task, good !! i = Some d -> from_dict d = Returned task ->
      (∀ j d' task', (i < j)%nat -> good !! j = Some d' ->
         from_dict d' = Returned task' -> task_id task' ≠ task_id task) ->
      ∃ t, tasks sg !! task_id task = Some t ∧ heap sg !! t = Some task.
Proof.
  intros Hgood Hbad.
  destruct (load_loop_app_bad good bad rest e s Hgood Hbad) as (sg & Hg & Hall & Hkept).
  exists sg. split; [exact Hg|]. split.
  - unfold _load_tasks. now rewrite Hall, Hkept.
  - intros i d task. now apply (load_loop_lookup good s sg).
Qed.

Lemma load_tasks_stops_at_bad_entry_witness :
  ∃ sg, load_loop [to_dict T1; to_dict A] (new_scheduler default_config) = Returned sg ∧
    _load_tasks
      (Some (Returned ([to_dict T1; to_dict A] ++
                       mkTaskDict (Some "B") None (Some "true") (Some "every hour")
                         None None None None None None None None :: [to_dict T2])))
      (new_scheduler default_config)
    = logger ERROR ("Error loading tasks: " +:+ "'name'") sg ∧
    ∀ i d task, [to_dict T1; to_dict A] !! i = Some d -> from_dict d = Returned task ->
      (∀ j d' task', (i < j)%nat -> [to_dict T1; to_dict A] !! j = Some d' ->
         from_dict d' = Returned task' -> task_id task' ≠ task_id task) ->
      ∃ t, tasks sg !! task_id task = Some t ∧ heap sg !! t = Some task.
Proof.
  apply (load_tasks_stops_at_bad_entry [to_dict T1; to_dict A]).
  - repeat constructor; eexists; reflexivity.
  - reflexivity.
Defined.

(** ** Purging and querying the history *)


#[local] Instance newer_first_total : Total newer_first.
Proof. intros a b. unfold newer_first. lia. Qed.

#[local] Instance newer_first_trans : Transitive newer_first.
Proof. intros a b c. unfold newer_first. lia. Qed.


(** ** The notifier, seen from an execution *)

Lemma execute_task_shape_frames (s : Scheduler) (t : ref) (task : Task) (w : World) :
  heap s !! t = Some task ->
  ∃ r' base, config base = config s ∧ outbox base = outbox s ∧
    history base = history s ∧ result_task_id r' = task_id task ∧
    ∀ db smtp,
      _execute_task t (with_db db (with_smtp smtp w)) s =
      handle_retries t r'
        (_send_notifications (set_is_running true task) r'
           (with_db db (with_smtp smtp w))
           (_save_task_result r' (with_db db (with_smtp smtp w)) base)).
Proof.
  intros Hh. unfold _execute_task, begin_execution. rewrite Hh.
  unfold finish_execution. rewrite (begin_lookup t task s _ Hh).
  cbn [clock_start clock_end with_db with_smtp].
  set (r0 := mkTaskResult _ _ _ _ _ _ _). set (s0 := logger _ _ _).
  destruct (run_action (set_is_running true task) r0 w s0) as [[r' s']|e] eqn:Ea.
  - pose proof Ea as Ea'.
    apply run_action_returned in Ea' as (Hid & _ & _ & _ & l & Hl).
    eexists _, _. split; [|split; [|split; [|split]]].
    5:{ intros db smtp. rewrite run_action_world, Ea. reflexivity. }
    all: try (rewrite Hl; reflexivity).
    cbn. exact Hid.
  - eexists _, _. split; [|split; [|split; [|split]]].
    5:{ intros db smtp. rewrite run_action_world, Ea. reflexivity. }
    all: reflexivity.
Qed.

Lemma save_task_result_config (r : TaskResult) (w : World) (s : Scheduler) :
  config (_save_task_result r w s) = config s ∧
  outbox (_save_task_result r w s) = outbox s.
Proof. unfold _save_task_result. now destruct (db_error w). Qed.

(** X21. An execution hands at most one mail to the SMTP server, after
    the row is saved: exactly when the row's status is completed and the
    task has [notify_on_success], or failed and [notify_on_failure], both
    credentials of the configuration are non-empty and the server takes
    the message.  The mail is for the status that the row records. *)
Theorem execution_notifies_by_flags (s : Scheduler) (t : ref) (task : Task)
    (w : World) :
  heap s !! t = Some task ->
  ∃ r, history (_execute_task t (with_db None w) s) = history s ++ [r] ∧
    result_task_id r = task_id task ∧
    outbox (_execute_task t w s) =
      if notifies task (status r) (config s) w
      then outbox s ++ [(task_id task, status r)]
      else outbox s.
Proof.
  intros Hh.
  destruct (execute_task_shape_frames s t task w Hh)
    as (r & base & Hc & Ho & Hhi & Hid & Hshape).
  exists r. split; [|split; [exact Hid|]].
  - assert (with_db None w = with_db None (with_smtp (smtp_error w) w)) as ->
      by now destruct w.
    rewrite Hshape, history_handle_retries, history_send_notifications,
      history_save_task_result. cbn. now rewrite Hhi.
  - rewrite (world_eta w) at 1. rewrite Hshape, outbox_handle_retries.
    rewrite <- (world_eta w).
    unfold _send_notifications, notifies.
    rewrite (proj1 (save_task_result_config _ _ _)), Hc.
    cbn [notify_on_success notify_on_failure set_is_running task_id].
    destruct (bool_decide (status r = COMPLETED) && notify_on_success task
              || bool_decide (status r = FAILED) && notify_on_failure task);
      cbn [negb andb];
      [|now rewrite (proj2 (save_task_result_config _ _ _)), Ho].
    destruct (bool_decide (email_username (config s) = "")); cbn [negb andb orb];
      [now rewrite (proj2 (save_task_result_config _ _ _)), Ho|].
    destruct (bool_decide (email_password (config s) = "")); cbn [negb andb orb];
      [now rewrite (proj2 (save_task_result_config _ _ _)), Ho|].
    destruct (smtp_error w); cbn;
      now rewrite (proj2 (save_task_result_config _ _ _)), Ho.
Qed.

Lemma execution_notifies_by_flags_witness :
  ∃ r, history (_execute_task 0 (with_db None (world 0 0 second exit_1)) with_T1_mail)
       = history with_T1_mail ++ [r] ∧
    result_task_id r = "T1" ∧
    outbox (_execute_task 0 (world 0 0 second exit_1) with_T1_mail)
    = if notifies T1 (status r) mail_config (world 0 0 second exit_1)
      then [] ++ [("T1", status r)] else [].
Proof.
  exact (execution_notifies_by_flags with_T1_mail 0 T1 (world 0 0 second exit_1)
           eq_refl).
Defined.
